(** * beep.structure.cli : format dispatch and batch structuring

    A shallow embedding of [src/beep/structure/cli.py]:
    - [auto_load], the chain of [re.match] tests that picks a datapath class;
    - [process_file_list_from_json], the batch loop over the manifest and the
      workflow report that follows it.

    Python strings are [string]; the manifest is the parsed [file_list_data]
    dictionary with its three keys; exceptions are values of [exn]; the
    file system, the environment and the calls made to the collaborators
    (logger, datapath classes, [dumpfn], [WorkflowOutputs]) are threaded
    through a state-and-error monad. *)

From Stdlib Require Import String Ascii List Bool ZArith Lia.
Import ListNotations.
Open Scope string_scope.

(* ================================================================= *)
(** ** Python [str] operations used by the module *)

Module Str.

(** [p[i:]] *)
Fixpoint drop (i : nat) (p : string) : string :=
  match i, p with
  | O, _ => p
  | S _, EmptyString => EmptyString
  | S i', String _ p' => drop i' p'
  end.

(** [p[:i]] *)
Fixpoint take (i : nat) (p : string) : string :=
  match i, p with
  | O, _ => EmptyString
  | S _, EmptyString => EmptyString
  | S i', String c p' => String c (take i' p')
  end.

(** [p.rfind(c)]: the highest index of [c] in [p], or [-1]. *)
Fixpoint rfind (c : ascii) (p : string) : Z :=
  match p with
  | EmptyString => (-1)%Z
  | String a p' =>
      let r := rfind c p' in
      if (0 <=? r)%Z then (r + 1)%Z
      else if Ascii.eqb a c then 0%Z else (-1)%Z
  end.

(** [p.startswith(c)] and [p.endswith(c)] for a one-character [c]. *)
Definition startswith (c : ascii) (p : string) : bool :=
  match p with
  | String a _ => Ascii.eqb a c
  | EmptyString => false
  end.

Fixpoint endswith (c : ascii) (p : string) : bool :=
  match p with
  | EmptyString => false
  | String a EmptyString => Ascii.eqb a c
  | String _ p' => endswith c p'
  end.

(** Some character of [p] differs from [c]. *)
Fixpoint has_other (c : ascii) (p : string) : bool :=
  match p with
  | EmptyString => false
  | String a p' => negb (Ascii.eqb a c) || has_other c p'
  end.

(** [p.split(c)]: never empty, [""] splits to [[""]]. *)
Fixpoint split (c : ascii) (p : string) : list string :=
  match p with
  | EmptyString => [EmptyString]
  | String a p' =>
      if Ascii.eqb a c then EmptyString :: split c p'
      else match split c p' with
           | w :: ws => String a w :: ws
           | [] => [String a EmptyString]
           end
  end.

(** [sep.join(comps)] *)
Fixpoint join (sep : string) (comps : list string) : string :=
  match comps with
  | [] => EmptyString
  | [w] => w
  | w :: ws => w ++ sep ++ join sep ws
  end.

End Str.

(* ================================================================= *)
(** ** [posixpath]: the functions of [os.path] the module calls *)

Module OsPath.

Definition sep : ascii := "/"%char.
Definition extsep : ascii := "."%char.

(** [os.path.basename(p)]: [p[p.rfind('/') + 1:]]. *)
Definition basename (p : string) : string :=
  Str.drop (Z.to_nat (Str.rfind sep p + 1)) p.

(** [os.path.splitext(p)] ([genericpath._splitext]): split at the last
    dot, unless that dot lies before the last separator or only dots
    stand between the separator and it. *)
Definition splitext (p : string) : string * string :=
  let sepIndex := Str.rfind sep p in
  let dotIndex := Str.rfind extsep p in
  if (sepIndex <? dotIndex)%Z then
    let filenameIndex := Z.to_nat (sepIndex + 1) in
    let lead := Str.take (Z.to_nat dotIndex - filenameIndex)
                         (Str.drop filenameIndex p) in
    if Str.has_other extsep lead
    then (Str.take (Z.to_nat dotIndex) p, Str.drop (Z.to_nat dotIndex) p)
    else (p, EmptyString)
  else (p, EmptyString).

Definition isabs (p : string) : bool := Str.startswith sep p.

(** [os.path.join(a, b)] *)
Definition join (a b : string) : string :=
  if Str.startswith sep b then b
  else if (match a with EmptyString => true | _ => false end)
          || Str.endswith sep a then a ++ b
  else a ++ String sep b.

(** The component loop of [os.path.normpath]. *)
Fixpoint norm_comps (initial_slashes : nat) (comps new_comps : list string)
  : list string :=
  match comps with
  | [] => new_comps
  | comp :: rest =>
      if String.eqb comp "" || String.eqb comp "." then
        norm_comps initial_slashes rest new_comps
      else if negb (String.eqb comp "..")
              || (Nat.eqb initial_slashes 0
                  && match new_comps with [] => true | _ => false end)
              || match new_comps with
                 | [] => false
                 | _ => String.eqb (last new_comps "") ".."
                 end
      then norm_comps initial_slashes rest (new_comps ++ [comp])
      else norm_comps initial_slashes rest (removelast new_comps)
  end.

(** [os.path.normpath(path)] *)
Definition normpath (path : string) : string :=
  match path with
  | EmptyString => "."
  | _ =>
      let initial_slashes :=
        if Str.startswith sep path then
          if Str.startswith sep (Str.drop 1 path)
             && negb (Str.startswith sep (Str.drop 2 path))
          then 2 else 1
        else 0 in
      let comps := norm_comps initial_slashes (Str.split sep path) [] in
      let body := Str.join "/" comps in
      let path' :=
        match initial_slashes with
        | 0 => body
        | 1 => "/" ++ body
        | _ => "//" ++ body
        end in
      match path' with
      | EmptyString => "."
      | _ => path'
      end
  end.

(** [os.path.abspath(path)], with the working directory as an argument. *)
Definition abspath (cwd path : string) : string :=
  normpath (if isabs path then path else join cwd path).

End OsPath.

(* ================================================================= *)
(** ** [re.match] on the regular fragment of Python's pattern language *)

Module Re.

(** Patterns.  [Dot] is [.] (any character but a newline); [Cls neg rs]
    is a bracket class given by character ranges, negated when [neg]. *)
Inductive regex : Type :=
| Void
| Eps
| Chr (c : ascii)
| Dot
| Cls (neg : bool) (ranges : list (ascii * ascii))
| Cat (r1 r2 : regex)
| Alt (r1 r2 : regex)
| Star (r : regex).

Definition newline : ascii := "010"%char.

Definition in_range (c : ascii) (r : ascii * ascii) : bool :=
  (nat_of_ascii (fst r) <=? nat_of_ascii c)%nat
  && (nat_of_ascii c <=? nat_of_ascii (snd r))%nat.

Definition in_class (neg : bool) (ranges : list (ascii * ascii)) (c : ascii)
  : bool :=
  xorb neg (existsb (in_range c) ranges).

(** The words a pattern denotes. *)
Inductive lang : regex -> string -> Prop :=
| LEps : lang Eps ""
| LChr c : lang (Chr c) (String c "")
| LDot c : Ascii.eqb c newline = false -> lang Dot (String c "")
| LCls neg rs c : in_class neg rs c = true -> lang (Cls neg rs) (String c "")
| LCat r1 r2 s1 s2 : lang r1 s1 -> lang r2 s2 -> lang (Cat r1 r2) (s1 ++ s2)
| LAltL r1 r2 s : lang r1 s -> lang (Alt r1 r2) s
| LAltR r1 r2 s : lang r2 s -> lang (Alt r1 r2) s
| LStarNil r : lang (Star r) ""
| LStarApp r s1 s2 :
    lang r s1 -> lang (Star r) s2 -> lang (Star r) (s1 ++ s2).

Fixpoint nullable (r : regex) : bool :=
  match r with
  | Void | Chr _ | Dot | Cls _ _ => false
  | Eps | Star _ => true
  | Cat r1 r2 => nullable r1 && nullable r2
  | Alt r1 r2 => nullable r1 || nullable r2
  end.

(** Derivative of a pattern by a character. *)
Fixpoint deriv (a : ascii) (r : regex) : regex :=
  match r with
  | Void | Eps => Void
  | Chr c => if Ascii.eqb a c then Eps else Void
  | Dot => if Ascii.eqb a newline then Void else Eps
  | Cls neg rs => if in_class neg rs a then Eps else Void
  | Cat r1 r2 =>
      if nullable r1 then Alt (Cat (deriv a r1) r2) (deriv a r2)
      else Cat (deriv a r1) r2
  | Alt r1 r2 => Alt (deriv a r1) (deriv a r2)
  | Star r1 => Cat (deriv a r1) (Star r1)
  end.

(** [re.match(pattern, s)] as a truth value: the pattern matches at the
    start of [s]; the match need not reach the end of [s]. *)
Fixpoint re_match (pattern : regex) (s : string) : bool :=
  nullable pattern
  || match s with
     | EmptyString => false
     | String a s' => re_match (deriv a pattern) s'
     end.

(** A literal string as a pattern. *)
Fixpoint lit (s : string) : regex :=
  match s with
  | EmptyString => Eps
  | String c s' => Cat (Chr c) (lit s')
  end.

End Re.

(* ================================================================= *)
(** ** Exceptions, outcomes and the data of the batch *)

(** A Python exception: its class and its message. *)
Inductive exn : Type :=
| PyExc (cls : string) (msg : string).

Definition exn_class (e : exn) : string :=
  match e with PyExc cls _ => cls end.

Definition NameError (name : string) : exn :=
  PyExc "NameError" ("name '" ++ name ++ "' is not defined").

Definition ValueError (msg : string) : exn := PyExc "ValueError" msg.

Definition IndexError : exn := PyExc "IndexError" "list index out of range".

Inductive result (A : Type) : Type :=
| Return (a : A)
| Raise (e : exn).
Arguments Return {A} a.
Arguments Raise {A} e.

(** The classes imported from [beep.structure.*]. *)
Inductive datapath_class : Type :=
| ArbinDatapath
| MaccorDatapath
| NewareDatapath
| IndigoDatapath
| BiologicDatapath.

(** An entry of [beep.conversion_schemas]: only ["file_pattern"] is read. *)
Record config : Type := { file_pattern : Re.regex }.

(** The seven schemas the module imports.  [beep.conversion_schemas] is
    not part of the sources at hand, so the schemas are an argument. *)
Record conversion_schemas : Type := {
  FastCharge_CONFIG : config;
  xTesladiag_CONFIG : config;
  ARBIN_CONFIG : config;
  MACCOR_CONFIG : config;
  INDIGO_CONFIG : config;
  BIOLOGIC_CONFIG : config;
  NEWARE_CONFIG : config
}.

(** The elements of [processed_message_list]. *)
Record message : Type := { comment : string; error : string }.

(** Names bound in the module's global namespace by its top-level
    statements ([import]s and [def]s), and the builtins the module uses.
    A name that the function body never assigns is looked up here. *)
Definition module_globals : list string :=
  [ "re"; "os"; "json"; "loadfn"; "dumpfn"; "logger";
    "FastCharge_CONFIG"; "xTesladiag_CONFIG"; "ARBIN_CONFIG"; "MACCOR_CONFIG";
    "INDIGO_CONFIG"; "BIOLOGIC_CONFIG"; "NEWARE_CONFIG";
    "ArbinDatapath"; "MaccorDatapath"; "NewareDatapath"; "IndigoDatapath";
    "BiologicDatapath"; "WorkflowOutputs"; "add_suffix_to_filename";
    "process_file_list_from_json"; "auto_load" ].

Definition builtins_used : list string :=
  [ "str"; "zip"; "len"; "ValueError" ].

Definition name_bound (name : string) : bool :=
  existsb (String.eqb name) (module_globals ++ builtins_used).

(** [zip(a, b, c)]: stops at the shortest of the three. *)
Fixpoint zip3 {A B C : Type} (a : list A) (b : list B) (c : list C)
  : list (A * B * C) :=
  match a, b, c with
  | x :: a', y :: b', z :: c' => (x, y, z) :: zip3 a' b' c'
  | _, _, _ => []
  end.

(** [os.environ.get(key, default)] *)
Fixpoint environ_get (environ : list (string * string)) (key default : string)
  : string :=
  match environ with
  | [] => default
  | (k, v) :: rest => if String.eqb k key then v else environ_get rest key default
  end.

(** [s.endswith(suffix)] *)
Fixpoint endswith_str (suffix s : string) : bool :=
  String.eqb s suffix
  || match s with
     | EmptyString => false
     | String _ s' => endswith_str suffix s'
     end.

(** Modelled from the spec: [beep.collate.add_suffix_to_filename] is not
    part of the sources at hand. The spec has it put the suffix before the
    final extension of the file name (section 4.3: [base_structure.json]),
    and has a name that already carries the suffix keep it once, not twice
    (section 8). The final extension is what starts at the last dot. On a
    name without a dot the spec is silent, and the module never passes one:
    the suffix then goes at the end. *)
Definition add_suffix_to_filename (filename suffix : string) : string :=
  let dotIndex := Str.rfind OsPath.extsep filename in
  let name := if (0 <=? dotIndex)%Z
              then Str.take (Z.to_nat dotIndex) filename else filename in
  let ext := if (0 <=? dotIndex)%Z
             then Str.drop (Z.to_nat dotIndex) filename else EmptyString in
  if endswith_str suffix name then filename else name ++ suffix ++ ext.

Section Structuring.

(** The structured-run objects and run identifiers are opaque here. *)
Variable Datapath : Type.
Variable RunId : Type.

(** The collaborators: [cls.from_file(filename)] reads and parses the raw
    file, [dp.structure()] updates the object in place; either may raise. *)
Variable from_file : datapath_class -> string -> result Datapath.
Variable structure : Datapath -> result Datapath.

Variable schemas : conversion_schemas.

(** [file_list_data] once parsed, with its three keys. *)
Record manifest : Type := {
  file_list : list string;
  validity : list string;
  run_list : list RunId
}.

(** Calls that leave the process, in the order they are made. *)
Inductive event : Type :=
| LogInfo (run_id : RunId) (filename : string)
| LogWarning (msg : string)
| MakeDirs (dir : string)
| FromFile (cls : datapath_class) (filename : string)
| Structure (dp : Datapath)
| Dumpfn (dp : Datapath) (loc : string)
| PutWorkflowOutputs (filename : string) (run_id : RunId) (res : string)
                     (label : string).

(** What the function reads and changes outside itself. *)
Record world : Type := {
  environ : list (string * string);
  cwd : string;
  dirs : list string;
  trace : list event
}.

(** State and exceptions. *)
Definition M (A : Type) : Type := world -> result A * world.

Definition ret {A} (a : A) : M A := fun w => (Return a, w).

Definition raise {A} (e : exn) : M A := fun w => (Raise e, w).

Definition bind {A B} (m : M A) (k : A -> M B) : M B :=
  fun w =>
    match m w with
    | (Return a, w') => k a w'
    | (Raise e, w') => (Raise e, w')
    end.

Definition lift {A} (r : result A) : M A := fun w => (r, w).

Definition get_world : M world := fun w => (Return w, w).

Definition emit (e : event) : M unit :=
  fun w => (Return tt,
            {| environ := environ w; cwd := cwd w; dirs := dirs w;
               trace := trace w ++ [e] |}).

Notation "x <- m ;; k" := (bind m (fun x => k))
  (at level 61, m at next level, right associativity).
Notation "m ;;; k" := (bind m (fun _ => k))
  (at level 61, right associativity).

(** A [for] loop that updates an accumulator; an exception ends it. *)
Fixpoint for_each {A S} (body : A -> S -> M S) (items : list A) (acc : S)
  : M S :=
  match items with
  | [] => ret acc
  | x :: rest => acc' <- body x acc ;; for_each body rest acc'
  end.

(** Evaluating a global name. *)
Definition load_global (name : string) : M unit :=
  if name_bound name then ret tt else raise (NameError name).

(** [os.path.exists(d)] and [os.makedirs(d)]. *)
Definition path_exists (d : string) : M bool :=
  w <- get_world ;; ret (existsb (String.eqb d) (dirs w)).

Definition makedirs (d : string) : M unit :=
  fun w => (Return tt,
            {| environ := environ w; cwd := cwd w; dirs := d :: dirs w;
               trace := trace w ++ [MakeDirs d] |}).

(** *** [auto_load] *)

Definition call_from_file (cls : datapath_class) (filename : string)
  : M Datapath :=
  emit (FromFile cls filename) ;;; lift (from_file cls filename).

Definition auto_load (filename : string) : M Datapath :=
  if Re.re_match (file_pattern (ARBIN_CONFIG schemas)) filename
     || Re.re_match (file_pattern (FastCharge_CONFIG schemas)) filename
  then call_from_file ArbinDatapath filename
  else if Re.re_match (file_pattern (MACCOR_CONFIG schemas)) filename
          || Re.re_match (file_pattern (xTesladiag_CONFIG schemas)) filename
  then call_from_file MaccorDatapath filename
  else if Re.re_match (file_pattern (INDIGO_CONFIG schemas)) filename
  then call_from_file IndigoDatapath filename
  else if Re.re_match (file_pattern (BIOLOGIC_CONFIG schemas)) filename
  then call_from_file BiologicDatapath filename
  else if Re.re_match (file_pattern (NEWARE_CONFIG schemas)) filename
  then call_from_file NewareDatapath filename
  else raise (ValueError
                (filename ++ " does not match any known file pattern")).

(** *** [process_file_list_from_json] *)

(** The five lists the loop appends to. *)
Record lists : Type := {
  processed_file_list : list string;
  processed_run_list : list RunId;
  processed_result_list : list string;
  processed_message_list : list message;
  invalid_file_list : list string
}.

Definition empty_lists : lists :=
  {| processed_file_list := []; processed_run_list := [];
     processed_result_list := []; processed_message_list := [];
     invalid_file_list := [] |}.

(** [output_json], the dictionary that is serialised and returned. *)
Record output_json : Type := {
  out_file_list : list string;
  out_run_list : list RunId;
  out_result_list : list string;
  out_message_list : list message;
  out_invalid_file_list : list string
}.

Definition make_output_json (l : lists) : output_json :=
  {| out_file_list := processed_file_list l;
     out_run_list := processed_run_list l;
     out_result_list := processed_result_list l;
     out_message_list := processed_message_list l;
     out_invalid_file_list := invalid_file_list l |}.

(** Lines 51-56: the output directory under the optional root. *)
Definition resolve_processed_dir (processed_dir : string) : M string :=
  w <- get_world ;;
  ret (OsPath.join (environ_get (environ w) "BEEP_PROCESSING_DIR" "/")
                   processed_dir).

Definition ensure_processed_dir (processed_dir : string) : M unit :=
  present <- path_exists processed_dir ;;
  if present then ret tt else makedirs processed_dir.

(** Lines 76-80: where the structured run of [filename] is written. *)
Definition structured_run_loc (cwd processed_dir filename : string) : string :=
  let (new_filename, ext) := OsPath.splitext (OsPath.basename filename) in
  let new_filename := new_filename ++ ".json" in
  let new_filename := add_suffix_to_filename new_filename "_structure" in
  let loc := OsPath.join processed_dir new_filename in
  OsPath.abspath cwd loc.

(** Line 67: the [logger.info] call; its arguments are evaluated first,
    the keyword argument [extra=s] last. *)
Definition log_entry (run_id : RunId) (filename : string) : M unit :=
  load_global "s" ;;;
  emit (LogInfo run_id filename).

(** Lines 68-90: the two branches on [validity]. *)
Definition structure_entry (processed_dir : string)
           (entry : string * string * RunId) (l : lists) : M lists :=
  let '(filename, validity, run_id) := entry in
  if String.eqb validity "valid" then
    dp <- auto_load filename ;;
    emit (Structure dp) ;;;
    dp <- lift (structure dp) ;;
    w <- get_world ;;
    let loc := structured_run_loc (cwd w) processed_dir filename in
    emit (Dumpfn dp loc) ;;;
    ret {| processed_file_list := processed_file_list l ++ [loc];
           processed_run_list := processed_run_list l ++ [run_id];
           processed_result_list := processed_result_list l ++ ["success"];
           processed_message_list :=
             processed_message_list l ++ [{| comment := ""; error := "" |}];
           invalid_file_list := invalid_file_list l |}
  else
    ret {| processed_file_list := processed_file_list l;
           processed_run_list := processed_run_list l;
           processed_result_list := processed_result_list l;
           processed_message_list := processed_message_list l;
           invalid_file_list := invalid_file_list l ++ [filename] |}.

(** Lines 66-90: one iteration. *)
Definition loop_body (processed_dir : string)
           (entry : string * string * RunId) (l : lists) : M lists :=
  let '(filename, _, run_id) := entry in
  log_entry run_id filename ;;;
  structure_entry processed_dir entry l.

(** [xs[0]] *)
Definition index0 {A} (xs : list A) : M A :=
  match xs with
  | x :: _ => ret x
  | [] => raise IndexError
  end.

(** Lines 100-114: the warning on the number of processed files, the
    record handed to [WorkflowOutputs], and the returned dictionary
    (the argument of [json.dumps]). *)
Definition workflow_report (out : output_json) : M output_json :=
  let file_list_size := length (out_file_list out) in
  (if (1 <? file_list_size)%nat || (file_list_size =? 0)%nat
   then emit (LogWarning
                "{file_list_size} files being validated, should be 1")
   else ret tt) ;;;
  filename <- index0 (out_file_list out) ;;
  run_id <- index0 (out_run_list out) ;;
  res <- index0 (out_result_list out) ;;
  emit (PutWorkflowOutputs filename run_id res "structuring") ;;;
  ret out.

(** The whole function, from line 50 on. Reading [file_list_json] into
    [file_list_data] (lines 42-45) and [WorkflowOutputs()] (line 48) come
    before and are taken to have succeeded. *)
Definition process_file_list_from_json (file_list_data : manifest)
           (processed_dir : string) : M output_json :=
  processed_dir <- resolve_processed_dir processed_dir ;;
  ensure_processed_dir processed_dir ;;;
  l <- for_each (loop_body processed_dir)
         (zip3 (file_list file_list_data) (validity file_list_data)
               (run_list file_list_data))
         empty_lists ;;
  workflow_report (make_output_json l).

End Structuring.

Arguments file_list {RunId} _.
Arguments validity {RunId} _.
Arguments run_list {RunId} _.
Arguments LogInfo {Datapath RunId} _ _.
Arguments LogWarning {Datapath RunId} _.
Arguments MakeDirs {Datapath RunId} _.
Arguments FromFile {Datapath RunId} _ _.
Arguments Structure {Datapath RunId} _.
Arguments Dumpfn {Datapath RunId} _ _.
Arguments PutWorkflowOutputs {Datapath RunId} _ _ _ _.
Arguments environ {Datapath RunId} _.
Arguments cwd {Datapath RunId} _.
Arguments dirs {Datapath RunId} _.
Arguments trace {Datapath RunId} _.
Arguments processed_file_list {RunId} _.
Arguments processed_run_list {RunId} _.
Arguments processed_result_list {RunId} _.
Arguments processed_message_list {RunId} _.
Arguments invalid_file_list {RunId} _.
Arguments empty_lists {RunId}.
Arguments out_file_list {RunId} _.
Arguments out_run_list {RunId} _.
Arguments out_result_list {RunId} _.
Arguments out_message_list {RunId} _.
Arguments out_invalid_file_list {RunId} _.
Arguments make_output_json {RunId} _.

(* ================================================================= *)
(** ** The specification's view of the same data *)

(** The positions the loop visits. *)
Definition entries {RunId} (m : manifest RunId) : list (string * string * RunId) :=
  zip3 (file_list m) (validity m) (run_list m).

(** The three sequences of a manifest have one length. *)
Definition well_shaped {RunId} (m : manifest RunId) : Prop :=
  length (validity m) = length (file_list m)
  /\ length (run_list m) = length (file_list m).

(** A manifest cut to the length of its shortest sequence. *)
Definition truncate {RunId} (m : manifest RunId) : manifest RunId :=
  let n := Nat.min (length (file_list m))
                   (Nat.min (length (validity m)) (length (run_list m))) in
  {| file_list := firstn n (file_list m);
     validity := firstn n (validity m);
     run_list := firstn n (run_list m) |}.

(** The Format Registry: the ordered (pattern, handler) bindings. *)
Definition registry (schemas : conversion_schemas)
  : list (Re.regex * datapath_class) :=
  [ (file_pattern (ARBIN_CONFIG schemas), ArbinDatapath);
    (file_pattern (FastCharge_CONFIG schemas), ArbinDatapath);
    (file_pattern (MACCOR_CONFIG schemas), MaccorDatapath);
    (file_pattern (xTesladiag_CONFIG schemas), MaccorDatapath);
    (file_pattern (INDIGO_CONFIG schemas), IndigoDatapath);
    (file_pattern (BIOLOGIC_CONFIG schemas), BiologicDatapath);
    (file_pattern (NEWARE_CONFIG schemas), NewareDatapath) ].

(** The registry's [lookup]: the handler of the first binding whose pattern
    matches. *)
Fixpoint lookup (bindings : list (Re.regex * datapath_class)) (filename : string)
  : option datapath_class :=
  match bindings with
  | [] => None
  | (pattern, cls) :: rest =>
      if Re.re_match pattern filename then Some cls else lookup rest filename
  end.

(** An entry that is ["valid"] and whose file loads and structures. *)
Definition structures_well {Datapath RunId}
           (from_file : datapath_class -> string -> result Datapath)
           (structure : Datapath -> result Datapath)
           (schemas : conversion_schemas)
           (e : string * string * RunId) : Prop :=
  snd (fst e) = "valid"
  /\ exists cls dp dp',
      lookup (registry schemas) (fst (fst e)) = Some cls
      /\ from_file cls (fst (fst e)) = Return dp
      /\ structure dp = Return dp'.

(** Some prefix of [s] is a word of [pattern]. *)
Definition matches_prefix (pattern : Re.regex) (s : string) : Prop :=
  exists pre suf, s = pre ++ suf /\ Re.lang pattern pre.

(** The world after the function's first lines (51-56) have run. *)
Definition after_setup {Datapath RunId} (processed_dir : string)
           (w : world Datapath RunId) : world Datapath RunId :=
  let d := OsPath.join (environ_get (environ w) "BEEP_PROCESSING_DIR" "/")
                       processed_dir in
  if existsb (String.eqb d) (dirs w) then w
  else {| environ := environ w; cwd := cwd w; dirs := d :: dirs w;
          trace := trace w ++ [MakeDirs d] |}.

Definition log {Datapath RunId} (e : event Datapath RunId)
           (w : world Datapath RunId) : world Datapath RunId :=
  {| environ := environ w; cwd := cwd w; dirs := dirs w;
     trace := trace w ++ [e] |}.

Definition size_warning : string :=
  "{file_list_size} files being validated, should be 1".

(* ================================================================= *)
(** ** A concrete setting for examples *)

Module Sample.

(** Synthetic schemas: [cellA_.*\.csv] for Arbin as in the spec's example,
    the overlapping prefix [cell] for Maccor, and plain prefixes for the
    others. *)
Definition pat_cellA : Re.regex :=
  Re.Cat (Re.lit "cellA_") (Re.Cat (Re.Star Re.Dot) (Re.lit ".csv")).

Definition schemas : conversion_schemas :=
  {| FastCharge_CONFIG := {| file_pattern := Re.lit "fast" |};
     xTesladiag_CONFIG := {| file_pattern := Re.lit "xTesla" |};
     ARBIN_CONFIG := {| file_pattern := pat_cellA |};
     MACCOR_CONFIG := {| file_pattern := Re.lit "cell" |};
     INDIGO_CONFIG := {| file_pattern := Re.lit "indigo" |};
     BIOLOGIC_CONFIG := {| file_pattern := Re.lit "bio" |};
     NEWARE_CONFIG := {| file_pattern := Re.lit "neware" |} |}.

(** A structured run is stood for by the name of its raw file. *)
Definition from_file (cls : datapath_class) (filename : string)
  : result string := Return filename.

Definition structure (dp : string) : result string := Return dp.

Definition w0 : world string Z :=
  {| environ := []; cwd := "/home/beep"; dirs := []; trace := [] |}.

Definition run (m : manifest Z) (w : world string Z)
  : result (output_json Z) * world string Z :=
  process_file_list_from_json string Z from_file structure schemas m
                              "data-share/structure/" w.

Definition one_valid : manifest Z :=
  {| file_list := ["cellA_2019.csv"]; validity := ["valid"];
     run_list := [42%Z] |}.

Definition empty : manifest Z :=
  {| file_list := []; validity := []; run_list := [] |}.

Definition all_invalid : manifest Z :=
  {| file_list := ["a.csv"; "b.csv"]; validity := ["invalid"; "skip"];
     run_list := [1%Z; 2%Z] |}.

Definition misshapen : manifest Z :=
  {| file_list := ["cellA_1.csv"; "cellA_2.csv"]; validity := ["valid"];
     run_list := [7%Z] |}.

Definition unknown_first : manifest Z :=
  {| file_list := ["unknown.dat"; "cellA_2019.csv"];
     validity := ["valid"; "valid"]; run_list := [1%Z; 2%Z] |}.

End Sample.

(* ================================================================= *)
(** ** From the argument string to the loop (lines 42-60) *)

Definition KeyError (key : string) : exn :=
  PyExc "KeyError" ("'" ++ key ++ "'").

(** An entry is visited by the ["valid"] branch. *)
Definition is_valid {RunId} (e : string * string * RunId) : bool :=
  String.eqb (snd (fst e)) "valid".

Section Loading.

Variable Datapath : Type.
Variable RunId : Type.
Variable from_file : datapath_class -> string -> result Datapath.
Variable structure : Datapath -> result Datapath.
Variable schemas : conversion_schemas.

(** The dictionary the argument parses to: each of the three keys may be
    missing; a value that is present is a list. *)
Record parsed : Type := {
  key_file_list : option (list string);
  key_validity : option (list string);
  key_run_list : option (list RunId)
}.

(** [monty]'s [loadfn] (reads and parses the named file) and [json.loads]
    (parses the string itself); either may raise. *)
Variable loadfn : string -> result parsed.
Variable json_loads : string -> result parsed.

Local Notation "x <- m ;; k" := (bind Datapath RunId m (fun x => k))
  (at level 61, m at next level, right associativity).
Local Notation "m ;;; k" := (bind Datapath RunId m (fun _ => k))
  (at level 61, right associativity).

(** Lines 42-45. *)
Definition load_file_list_data (file_list_json : string) : M Datapath RunId parsed :=
  if endswith_str ".json" file_list_json
  then lift Datapath RunId (loadfn file_list_json)
  else lift Datapath RunId (json_loads file_list_json).

(** [d[key]] *)
Definition subscript {A} (value : option A) (key : string) : M Datapath RunId A :=
  match value with
  | Some v => ret Datapath RunId v
  | None => raise Datapath RunId (KeyError key)
  end.

(** The function from its string argument: lines 42-60, then the loop and
    the report as in [process_file_list_from_json]. [WorkflowOutputs()]
    (line 48) and [os.makedirs] (line 56) are taken to succeed here;
    [process_file_list_json_checked] below has their failures. *)
Definition process_file_list_json (file_list_json processed_dir : string)
  : M Datapath RunId (output_json RunId) :=
  file_list_data <- load_file_list_data file_list_json ;;
  processed_dir <- resolve_processed_dir Datapath RunId processed_dir ;;
  ensure_processed_dir Datapath RunId processed_dir ;;;
  file_list <- subscript (key_file_list file_list_data) "file_list" ;;
  validities <- subscript (key_validity file_list_data) "validity" ;;
  run_ids <- subscript (key_run_list file_list_data) "run_list" ;;
  l <- for_each Datapath RunId
         (loop_body Datapath RunId from_file structure schemas processed_dir)
         (zip3 file_list validities run_ids) empty_lists ;;
  workflow_report Datapath RunId (make_output_json l).

(** The outcome of [WorkflowOutputs()] on line 48, and the exception with
    which [os.makedirs] refuses a directory it cannot create, if it does. *)
Variable workflow_outputs : result unit.
Variable makedirs_error : string -> option exn.



End Loading.

Arguments key_file_list {RunId} _.
Arguments key_validity {RunId} _.
Arguments key_run_list {RunId} _.

(** The schemas with the two patterns of each shared handler exchanged. *)
Definition swap_shared (schemas : conversion_schemas) : conversion_schemas :=
  {| FastCharge_CONFIG := ARBIN_CONFIG schemas;
     xTesladiag_CONFIG := MACCOR_CONFIG schemas;
     ARBIN_CONFIG := FastCharge_CONFIG schemas;
     MACCOR_CONFIG := xTesladiag_CONFIG schemas;
     INDIGO_CONFIG := INDIGO_CONFIG schemas;
     BIOLOGIC_CONFIG := BIOLOGIC_CONFIG schemas;
     NEWARE_CONFIG := NEWARE_CONFIG schemas |}.

(* ================================================================= *)
(** ** Strings *)

Lemma append_empty_r (s : string) : s ++ "" = s.
Proof. induction s as [|c s IH]; simpl; [reflexivity | now rewrite IH]. Qed.

Lemma append_assoc (s1 s2 s3 : string) : (s1 ++ s2) ++ s3 = s1 ++ (s2 ++ s3).
Proof. induction s1 as [|c s1 IH]; simpl; [reflexivity | now rewrite IH]. Qed.

Lemma append_eq_empty (s1 s2 : string) : s1 ++ s2 = "" -> s1 = "" /\ s2 = "".
Proof. destruct s1; simpl; [auto | discriminate]. Qed.


(* ================================================================= *)
(** ** [re_match] decides whether a prefix is a word of the pattern *)

Lemma nullable_lang (r : Re.regex) : Re.nullable r = true <-> Re.lang r "".
Proof.
  split.
  - induction r; simpl; intros H; try discriminate.
    + constructor.
    + apply andb_true_iff in H as [H1 H2].
      change "" with ("" ++ ""). constructor; auto.
    + apply orb_true_iff in H as [H | H].
      * apply Re.LAltL; auto.
      * apply Re.LAltR; auto.
    + constructor.
  - intros H. remember "" as s eqn:Es.
    induction H; simpl; try discriminate; auto.
    + apply append_eq_empty in Es as [E1 E2].
      rewrite IHlang1, IHlang2; auto.
    + rewrite IHlang; auto.
    + rewrite IHlang, orb_true_r; auto.
Qed.

Lemma deriv_sound (a : ascii) (r : Re.regex) :
  forall s, Re.lang (Re.deriv a r) s -> Re.lang r (String a s).
Proof.
  induction r; simpl; intros s H.
  - inversion H.
  - inversion H.
  - destruct (Ascii.eqb a c) eqn:E; inversion H; subst.
    apply Ascii.eqb_eq in E; subst. constructor.
  - destruct (Ascii.eqb a Re.newline) eqn:E; inversion H; subst.
    constructor; assumption.
  - destruct (Re.in_class neg ranges a) eqn:E; inversion H; subst.
    constructor; assumption.
  - destruct (Re.nullable r1) eqn:N.
    + inversion H; subst.
      * match goal with
        | Hc : Re.lang (Re.Cat _ _) _ |- _ => inversion Hc; subst
        end.
        change (String a (s1 ++ s2)) with (String a s1 ++ s2).
        constructor; auto.
      * change (String a s) with ("" ++ String a s).
        constructor; auto. apply nullable_lang; assumption.
    + inversion H; subst.
      change (String a (s1 ++ s2)) with (String a s1 ++ s2).
      constructor; auto.
  - inversion H; subst.
    + apply Re.LAltL; auto.
    + apply Re.LAltR; auto.
  - inversion H; subst.
    change (String a (s1 ++ s2)) with (String a s1 ++ s2).
    constructor; auto.
Qed.

Lemma deriv_complete (a : ascii) (r : Re.regex) (s0 : string) :
  Re.lang r s0 -> forall t, s0 = String a t -> Re.lang (Re.deriv a r) t.
Proof.
  induction 1; intros t E; simpl.
  - discriminate.
  - injection E as -> <-. rewrite Ascii.eqb_refl. constructor.
  - injection E as -> <-. rewrite H. constructor.
  - injection E as -> <-. rewrite H. constructor.
  - destruct s1 as [|b s1']; simpl in E.
    + assert (N : Re.nullable r1 = true) by (apply nullable_lang; assumption).
      rewrite N. apply Re.LAltR. auto.
    + injection E as -> <-.
      destruct (Re.nullable r1).
      * apply Re.LAltL. constructor; auto.
      * constructor; auto.
  - apply Re.LAltL; auto.
  - apply Re.LAltR; auto.
  - discriminate.
  - destruct s1 as [|b s1']; simpl in E.
    + apply IHlang2 in E. simpl in E. exact E.
    + injection E as -> <-. constructor; auto.
Qed.

Lemma deriv_lang (a : ascii) (r : Re.regex) (s : string) :
  Re.lang (Re.deriv a r) s <-> Re.lang r (String a s).
Proof.
  split; [apply deriv_sound | intros H; eapply deriv_complete; eauto].
Qed.

Lemma re_match_prefix (s : string) :
  forall r, Re.re_match r s = true <-> matches_prefix r s.
Proof.
  unfold matches_prefix.
  induction s as [|a s IH]; intros r; simpl.
  - rewrite orb_false_r, nullable_lang. split.
    + intros H. exists "", "". auto.
    + intros (pre & suf & E & H). symmetry in E.
      apply append_eq_empty in E as [-> _]. exact H.
  - rewrite orb_true_iff, nullable_lang, IH. split.
    + intros [H | (pre & suf & -> & H)].
      * exists "", (String a s). auto.
      * exists (String a pre), suf. split; [reflexivity |].
        apply deriv_lang; assumption.
    + intros (pre & suf & E & H). destruct pre as [|b pre]; simpl in E.
      * left; assumption.
      * injection E as <- ->. right. exists pre, suf. split; [reflexivity |].
        apply deriv_lang; assumption.
Qed.

Lemma re_match_app (r : Re.regex) (s rest : string) :
  Re.re_match r s = true -> Re.re_match r (s ++ rest) = true.
Proof.
  rewrite !re_match_prefix. intros (pre & suf & -> & H).
  exists pre, (suf ++ rest). split; [apply append_assoc | exact H].
Qed.

(* ================================================================= *)
(** ** The registry's [lookup] *)

Lemma lookup_none (bindings : list (Re.regex * datapath_class)) (filename : string) :
  lookup bindings filename = None <->
  (forall pattern cls, In (pattern, cls) bindings ->
                       Re.re_match pattern filename = false).
Proof.
  induction bindings as [|[q c] rest IH]; simpl.
  - split; [intros _ ? ? [] | reflexivity].
  - destruct (Re.re_match q filename) eqn:E.
    + split; [discriminate |].
      intros H. rewrite (H q c) in E; [discriminate | now left].
    + rewrite IH. split.
      * intros H pattern cls [Heq | Hin]; [congruence | eauto].
      * intros H pattern cls Hin. apply (H pattern cls). now right.
Qed.

Lemma lookup_first (bindings : list (Re.regex * datapath_class))
      (filename : string) :
  forall i pattern cls,
    nth_error bindings i = Some (pattern, cls) ->
    Re.re_match pattern filename = true ->
    (forall j q c, j < i -> nth_error bindings j = Some (q, c) ->
                   Re.re_match q filename = false) ->
    lookup bindings filename = Some cls.
Proof.
  induction bindings as [|[q c] rest IH]; intros i pattern cls Hnth Hm Hearlier.
  - destruct i; discriminate.
  - destruct i as [|i]; simpl in *.
    + injection Hnth as -> ->. now rewrite Hm.
    + rewrite (Hearlier 0 q c); [| lia | reflexivity].
      apply (IH i pattern cls); auto.
      intros j q' c' Hj Hq. apply (Hearlier (S j) q' c'); [lia | exact Hq].
Qed.

Lemma lookup_some (bindings : list (Re.regex * datapath_class))
      (filename : string) (cls : datapath_class) :
  lookup bindings filename = Some cls ->
  exists i pattern,
    nth_error bindings i = Some (pattern, cls)
    /\ Re.re_match pattern filename = true
    /\ (forall j q c, j < i -> nth_error bindings j = Some (q, c) ->
                      Re.re_match q filename = false).
Proof.
  induction bindings as [|[q c] rest IH]; simpl; [discriminate |].
  destruct (Re.re_match q filename) eqn:E.
  - intros [= ->]. exists 0, q. repeat split; auto. intros j ? ? Hj; lia.
  - intros H. destruct (IH H) as (i & pattern & Hnth & Hm & Hearlier).
    exists (S i), pattern. repeat split; auto.
    intros [|j] q' c' Hj Hq; simpl in Hq.
    + injection Hq as <- <-. exact E.
    + apply (Hearlier j q' c'); [lia | exact Hq].
Qed.

Section Dispatch.

Variable Datapath : Type.
Variable RunId : Type.
Variable from_file : datapath_class -> string -> result Datapath.
Variable schemas : conversion_schemas.

Let W := world Datapath RunId.
Let auto_load' := auto_load Datapath RunId from_file schemas.
Let call_from_file' := call_from_file Datapath RunId from_file.

(** The conditional chain of [auto_load] is a first-match walk of the
    registry. *)
Lemma auto_load_lookup (filename : string) :
  auto_load' filename =
  match lookup (registry schemas) filename with
  | Some cls => call_from_file' cls filename
  | None => raise Datapath RunId
              (ValueError (filename ++ " does not match any known file pattern"))
  end.
Proof.
  unfold auto_load', auto_load, registry, lookup.
  destruct (Re.re_match (file_pattern (ARBIN_CONFIG schemas)) filename);
    [reflexivity |].
  destruct (Re.re_match (file_pattern (FastCharge_CONFIG schemas)) filename);
    [reflexivity |].
  destruct (Re.re_match (file_pattern (MACCOR_CONFIG schemas)) filename);
    [reflexivity |].
  destruct (Re.re_match (file_pattern (xTesladiag_CONFIG schemas)) filename);
    [reflexivity |].
  destruct (Re.re_match (file_pattern (INDIGO_CONFIG schemas)) filename);
    [reflexivity |].
  destruct (Re.re_match (file_pattern (BIOLOGIC_CONFIG schemas)) filename);
    [reflexivity |].
  destruct (Re.re_match (file_pattern (NEWARE_CONFIG schemas)) filename);
    reflexivity.
Qed.

(** Calling a constructor: the call is recorded, then its outcome is the
    outcome of [auto_load]. *)
Lemma call_from_file_run (cls : datapath_class) (filename : string) (w : W) :
  call_from_file' cls filename w
  = (from_file cls filename, log (FromFile cls filename) w).
Proof.
  unfold call_from_file', call_from_file, bind, emit, lift, log. reflexivity.
Qed.

(** C8. [auto_load] tests the patterns in a fixed order and constructs the
    handler of the first one that matches: [ArbinDatapath] for the ARBIN
    pattern and, failing that, for the FastCharge pattern; then
    [MaccorDatapath] for the MACCOR and the xTesladiag patterns; then
    [IndigoDatapath], [BiologicDatapath] and [NewareDatapath], each for its
    own pattern. In terms of the registry: the binding selected is the first
    that matches, so of two bindings that both match the earlier one wins. *)
Theorem auto_load_first_match_wins (filename : string) (w : W) :
  let arbin := Re.re_match (file_pattern (ARBIN_CONFIG schemas)) filename in
  let fastcharge :=
    Re.re_match (file_pattern (FastCharge_CONFIG schemas)) filename in
  let maccor := Re.re_match (file_pattern (MACCOR_CONFIG schemas)) filename in
  let xtesladiag :=
    Re.re_match (file_pattern (xTesladiag_CONFIG schemas)) filename in
  let indigo := Re.re_match (file_pattern (INDIGO_CONFIG schemas)) filename in
  let biologic :=
    Re.re_match (file_pattern (BIOLOGIC_CONFIG schemas)) filename in
  let neware := Re.re_match (file_pattern (NEWARE_CONFIG schemas)) filename in
  let constructs cls :=
    auto_load' filename w
    = (from_file cls filename, log (FromFile cls filename) w) in
  (arbin = true -> constructs ArbinDatapath)
  /\ (arbin = false -> fastcharge = true -> constructs ArbinDatapath)
  /\ (arbin = false -> fastcharge = false -> maccor = true ->
      constructs MaccorDatapath)
  /\ (arbin = false -> fastcharge = false -> maccor = false ->
      xtesladiag = true -> constructs MaccorDatapath)
  /\ (arbin = false -> fastcharge = false -> maccor = false ->
      xtesladiag = false -> indigo = true -> constructs IndigoDatapath)
  /\ (arbin = false -> fastcharge = false -> maccor = false ->
      xtesladiag = false -> indigo = false -> biologic = true ->
      constructs BiologicDatapath)
  /\ (arbin = false -> fastcharge = false -> maccor = false ->
      xtesladiag = false -> indigo = false -> biologic = false ->
      neware = true -> constructs NewareDatapath)
  /\ (forall i pattern cls,
         nth_error (registry schemas) i = Some (pattern, cls) ->
         Re.re_match pattern filename = true ->
         (forall j q c, j < i -> nth_error (registry schemas) j = Some (q, c) ->
                        Re.re_match q filename = false) ->
         constructs cls)
  /\ (forall k later cls_k,
         nth_error (registry schemas) k = Some (later, cls_k) ->
         Re.re_match later filename = true ->
         exists i pattern cls,
           i <= k
           /\ nth_error (registry schemas) i = Some (pattern, cls)
           /\ Re.re_match pattern filename = true
           /\ constructs cls).
Proof.
  intros arbin fastcharge maccor xtesladiag indigo biologic neware constructs.
  assert (Hchain : forall cls,
             lookup (registry schemas) filename = Some cls -> constructs cls).
  { intros cls E. unfold constructs. rewrite auto_load_lookup, E.
    apply call_from_file_run. }
  repeat match goal with |- _ /\ _ => split end.
  - intros H1. apply Hchain. unfold registry, lookup. fold arbin.
    rewrite H1. reflexivity.
  - intros H1 H2. apply Hchain. unfold registry, lookup.
    fold arbin fastcharge. rewrite H1, H2. reflexivity.
  - intros H1 H2 H3. apply Hchain. unfold registry, lookup.
    fold arbin fastcharge maccor. rewrite H1, H2, H3. reflexivity.
  - intros H1 H2 H3 H4. apply Hchain. unfold registry, lookup.
    fold arbin fastcharge maccor xtesladiag. rewrite H1, H2, H3, H4.
    reflexivity.
  - intros H1 H2 H3 H4 H5. apply Hchain. unfold registry, lookup.
    fold arbin fastcharge maccor xtesladiag indigo.
    rewrite H1, H2, H3, H4, H5. reflexivity.
  - intros H1 H2 H3 H4 H5 H6. apply Hchain. unfold registry, lookup.
    fold arbin fastcharge maccor xtesladiag indigo biologic.
    rewrite H1, H2, H3, H4, H5, H6. reflexivity.
  - intros H1 H2 H3 H4 H5 H6 H7. apply Hchain. unfold registry, lookup.
    fold arbin fastcharge maccor xtesladiag indigo biologic neware.
    rewrite H1, H2, H3, H4, H5, H6, H7. reflexivity.
  - intros i pattern cls Hnth Hm Hearlier. apply Hchain.
    apply (lookup_first _ _ i pattern cls Hnth Hm Hearlier).
  - intros k later cls_k Hnth Hm.
    destruct (lookup (registry schemas) filename) as [cls|] eqn:E.
    + destruct (lookup_some _ _ _ E) as (i & pattern & Hi & Hmi & Hearlier).
      exists i, pattern, cls. split; [| split; [exact Hi | split; [exact Hmi |]]].
      * destruct (Nat.le_gt_cases i k) as [Hle | Hgt]; [exact Hle |].
        rewrite (Hearlier k later cls_k Hgt Hnth) in Hm. discriminate.
      * apply Hchain. reflexivity.
    + rewrite lookup_none in E.
      rewrite (E later cls_k) in Hm; [discriminate |].
      eapply nth_error_In; eauto.
Qed.

(** C10, as amended. The patterns are matched against the entry exactly as
    the manifest gives it, directories included: a binding is selected when
    a word of its pattern is a prefix of that whole string and no earlier
    pattern has a word that is one; when no pattern has such a word the call
    raises [ValueError]. Nothing has to match up to the end of the string. *)
Theorem auto_load_matches_whole_entry (filename : string) :
  (forall i pattern cls,
      nth_error (registry schemas) i = Some (pattern, cls) ->
      matches_prefix pattern filename ->
      (forall j q c, j < i -> nth_error (registry schemas) j = Some (q, c) ->
                     ~ matches_prefix q filename) ->
      auto_load' filename = call_from_file' cls filename)
  /\ ((forall pattern cls, In (pattern, cls) (registry schemas) ->
                           ~ matches_prefix pattern filename) ->
      auto_load' filename =
      raise Datapath RunId
            (ValueError (filename ++ " does not match any known file pattern")))
  /\ (forall pattern rest,
         Re.re_match pattern filename = true ->
         Re.re_match pattern (filename ++ rest) = true).
Proof.
  split; [| split].
  - intros i pattern cls Hnth Hm Hearlier.
    rewrite auto_load_lookup.
    rewrite (lookup_first _ _ i pattern cls Hnth); auto.
    + apply re_match_prefix; exact Hm.
    + intros j q c Hj Hq.
      destruct (Re.re_match q filename) eqn:E; [| reflexivity].
      exfalso. apply (Hearlier j q c Hj Hq). apply re_match_prefix; exact E.
  - intros Hnone. rewrite auto_load_lookup.
    assert (E : lookup (registry schemas) filename = None).
    { apply lookup_none. intros pattern cls Hin.
      destruct (Re.re_match pattern filename) eqn:E; [| reflexivity].
      exfalso. apply (Hnone pattern cls Hin). apply re_match_prefix; exact E. }
    now rewrite E.
  - intros pattern rest. apply re_match_app.
Qed.

End Dispatch.

(* ================================================================= *)
(** ** The batch loop *)

Lemma zip3_firstn {A B C : Type} (a : list A) :
  forall (b : list B) (c : list C),
    zip3 (firstn (Nat.min (length a) (Nat.min (length b) (length c))) a)
         (firstn (Nat.min (length a) (Nat.min (length b) (length c))) b)
         (firstn (Nat.min (length a) (Nat.min (length b) (length c))) c)
    = zip3 a b c.
Proof.
  induction a as [|x a IH]; intros [|y b] [|z c]; simpl; try reflexivity.
  now rewrite IH.
Qed.

Lemma zip3_nil_iff {A B C : Type} (a : list A) (b : list B) (c : list C) :
  zip3 a b c = [] <-> a = [] \/ b = [] \/ c = [].
Proof.
  destruct a, b, c; simpl; split; intros H; auto;
    try discriminate; destruct H as [H | [H | H]]; discriminate.
Qed.

Lemma zip3_same_length {A B C : Type} (a : list A) :
  forall (b : list B) (c : list C),
    length b = length a -> length c = length a ->
    map (fun e => fst (fst e)) (zip3 a b c) = a
    /\ map (fun e => snd (fst e)) (zip3 a b c) = b
    /\ map snd (zip3 a b c) = c.
Proof.
  induction a as [|x a IH]; intros [|y b] [|z c] Hb Hc;
    simpl in *; try discriminate; auto.
  injection Hb as Hb. injection Hc as Hc.
  destruct (IH b c Hb Hc) as (-> & -> & ->). auto.
Qed.

Lemma entries_nonempty {RunId} (m : manifest RunId) :
  well_shaped m -> file_list m <> [] -> entries m <> [].
Proof.
  intros [Hv Hr] Hf E. apply zip3_nil_iff in E.
  destruct E as [E | [E | E]]; [auto | |];
    rewrite E in *; simpl in *;
    destruct (file_list m); simpl in *; congruence.
Qed.

Section Batch.

Variable Datapath : Type.
Variable RunId : Type.
Variable from_file : datapath_class -> string -> result Datapath.
Variable structure : Datapath -> result Datapath.
Variable schemas : conversion_schemas.

Let W := world Datapath RunId.
Let process := process_file_list_from_json Datapath RunId from_file structure schemas.
Let loop_body' := loop_body Datapath RunId from_file structure schemas.
Let structure_entry' := structure_entry Datapath RunId from_file structure schemas.
Let workflow_report' := workflow_report Datapath RunId.
Let auto_load' := auto_load Datapath RunId from_file schemas.

(** The function is its loop and its report, run after the set-up. *)
Lemma process_unfold (m : manifest RunId) (d : string) (w : W) :
  process m d w =
  bind Datapath RunId
       (for_each Datapath RunId
          (loop_body' (OsPath.join
                         (environ_get (environ w) "BEEP_PROCESSING_DIR" "/") d))
          (entries m) empty_lists)
       (fun l => workflow_report' (make_output_json l))
       (after_setup d w).
Proof.
  unfold process, process_file_list_from_json, resolve_processed_dir,
    ensure_processed_dir, path_exists, after_setup, entries.
  unfold bind at 1 2 3 4. unfold get_world, ret. simpl.
  destruct (existsb _ (dirs w)); reflexivity.
Qed.

Lemma for_each_app {A S : Type} (body : A -> S -> M Datapath RunId S)
      (pre post : list A) :
  forall (l : S) (w : W),
    for_each Datapath RunId body (pre ++ post) l w =
    bind Datapath RunId (for_each Datapath RunId body pre l)
         (for_each Datapath RunId body post) w.
Proof.
  induction pre as [|x pre IH]; intros l w; simpl.
  - reflexivity.
  - unfold bind. destruct (body x l w) as [[l' | e] w1].
    + rewrite IH. reflexivity.
    + reflexivity.
Qed.

(** The first iteration stops at the [logger.info] call. *)
Lemma loop_raises_NameError (d : string) (e : string * string * RunId)
      (rest : list (string * string * RunId)) (l : lists RunId) (w : W) :
  for_each Datapath RunId (loop_body' d) (e :: rest) l w
  = (Raise (NameError "s"), w).
Proof. destruct e as [[filename v] run_id]. reflexivity. Qed.

Lemma process_nonempty (m : manifest RunId) (d : string) (w : W) :
  entries m <> [] ->
  process m d w = (Raise (NameError "s"), after_setup d w).
Proof.
  intros H. rewrite process_unfold.
  destruct (entries m) as [|e rest]; [congruence |].
  unfold bind. now rewrite loop_raises_NameError.
Qed.

Lemma report_empty (out : output_json RunId) (w : W) :
  out_file_list out = [] ->
  workflow_report' out w = (Raise IndexError, log (LogWarning size_warning) w).
Proof.
  intros H. unfold workflow_report', workflow_report. rewrite H. reflexivity.
Qed.

Lemma process_empty (m : manifest RunId) (d : string) (w : W) :
  entries m = [] ->
  process m d w
  = (Raise IndexError, log (LogWarning size_warning) (after_setup d w)).
Proof.
  intros H. rewrite process_unfold, H. reflexivity.
Qed.

(** The function never returns a dictionary. *)
Lemma process_raises (m : manifest RunId) (d : string) (w : W) :
  exists e w', process m d w = (Raise e, w').
Proof.
  destruct (entries m) as [|e rest] eqn:E.
  - eexists _, _. apply process_empty; exact E.
  - eexists _, _. apply process_nonempty. congruence.
Qed.

Lemma after_setup_trace (d : string) (w : W) :
  exists evs,
    trace (after_setup d w) = (trace w ++ evs)%list
    /\ forall ev, In ev evs -> exists dir, ev = MakeDirs dir.
Proof.
  unfold after_setup. destruct (existsb _ (dirs w)).
  - exists []. rewrite app_nil_r. split; [reflexivity | intros ? []].
  - eexists [_]. split; [reflexivity |].
    intros ev [<- | []]. eauto.
Qed.

(** The branch taken for an entry that is not ["valid"]. *)
Lemma structure_entries_invalid (d : string)
      (es : list (string * string * RunId)) :
  Forall (fun e => snd (fst e) <> "valid") es ->
  forall (l : lists RunId) (w : W),
    for_each Datapath RunId (structure_entry' d) es l w =
    (Return {| processed_file_list := processed_file_list l;
               processed_run_list := processed_run_list l;
               processed_result_list := processed_result_list l;
               processed_message_list := processed_message_list l;
               invalid_file_list :=
                 (invalid_file_list l ++ map (fun e => fst (fst e)) es)%list |},
     w).
Proof.
  induction 1 as [|[[filename v] run_id] es Hv _ IH]; intros l w; simpl.
  - rewrite app_nil_r. destruct l; reflexivity.
  - simpl in Hv. apply String.eqb_neq in Hv.
    unfold bind, structure_entry', structure_entry. rewrite Hv.
    unfold ret. fold structure_entry'.
    change (structure_entry Datapath RunId from_file structure schemas d)
      with (structure_entry' d).
    rewrite IH. simpl. rewrite <- app_assoc. reflexivity.
Qed.

Lemma auto_load_unmatched (filename : string) (w : W) :
  (forall pattern cls, In (pattern, cls) (registry schemas) ->
                       Re.re_match pattern filename = false) ->
  auto_load' filename w =
  (Raise (ValueError (filename ++ " does not match any known file pattern")), w).
Proof.
  intros H. apply lookup_none in H.
  unfold auto_load'. rewrite auto_load_lookup, H. reflexivity.
Qed.

Lemma structure_entry_unmatched (d filename : string) (run_id : RunId)
      (l : lists RunId) (w : W) :
  (forall pattern cls, In (pattern, cls) (registry schemas) ->
                       Re.re_match pattern filename = false) ->
  structure_entry' d (filename, "valid", run_id) l w =
  (Raise (ValueError (filename ++ " does not match any known file pattern")), w).
Proof.
  intros H. unfold structure_entry', structure_entry. simpl.
  unfold bind at 1.
  change (auto_load Datapath RunId from_file schemas filename w)
    with (auto_load' filename w).
  rewrite (auto_load_unmatched filename w H). reflexivity.
Qed.

(** C1. Whenever the loop has an entry to visit, whatever its validity, the
    call raises [NameError] for the name [s] of the [logger.info] call's
    [extra] argument, which nothing binds; this happens in the first
    iteration, before any file is dispatched, structured or dumped: the only
    thing done by then is the creation of the output directory, and no
    dictionary is returned. *)
Theorem nonempty_manifest_raises_NameError
        (m : manifest RunId) (d : string) (w : W) :
  entries m <> [] ->
  name_bound "s" = false
  /\ process m d w = (Raise (NameError "s"), after_setup d w)
  /\ exists evs,
      trace (after_setup d w) = (trace w ++ evs)%list
      /\ forall ev, In ev evs -> exists dir, ev = MakeDirs dir.
Proof.
  intros H. split; [reflexivity |]. split.
  - apply process_nonempty; exact H.
  - apply after_setup_trace.
Qed.

(** C2, as amended. When the filename of a valid entry matches no registered
    pattern, [auto_load] raises [ValueError] ("... does not match any known
    file pattern") without constructing a handler; nothing catches it, so
    the branch of the loop for that entry raises it too, the entries after
    it are not looked at, and the call returns no dictionary. *)
Theorem unmatched_file_aborts_batch (filename : string) :
  (forall pattern cls, In (pattern, cls) (registry schemas) ->
                       Re.re_match pattern filename = false) ->
  let err :=
    ValueError (filename ++ " does not match any known file pattern") in
  (forall w, auto_load' filename w = (Raise err, w))
  /\ (forall d run_id l w,
         structure_entry' d (filename, "valid", run_id) l w = (Raise err, w))
  /\ (forall d pre run_id post l w l' w',
         for_each Datapath RunId (structure_entry' d) pre l w = (Return l', w') ->
         for_each Datapath RunId (structure_entry' d)
                  (pre ++ (filename, "valid", run_id) :: post) l w
         = (Raise err, w'))
  /\ (forall m d w run_id,
         In (filename, "valid", run_id) (entries m) ->
         exists e w', process m d w = (Raise e, w')).
Proof.
  intros H err. split; [| split; [| split]].
  - intros w. apply auto_load_unmatched; exact H.
  - intros. apply structure_entry_unmatched; exact H.
  - intros d pre run_id post l w l' w' Hpre.
    rewrite for_each_app. unfold bind at 1. rewrite Hpre.
    cbn [for_each]. unfold bind at 1.
    rewrite structure_entry_unmatched; [reflexivity | exact H].
  - intros m d w run_id _. apply process_raises.
Qed.

(** C3, as amended. The lengths of the three sequences are never compared:
    the loop visits the positions that all three have ([zip]), so a manifest
    with sequences of different lengths is processed exactly like the
    manifest cut to its shortest sequence, which is well shaped. *)
Theorem mismatched_lengths_are_truncated
        (m : manifest RunId) (d : string) (w : W) :
  entries (truncate m) = entries m
  /\ well_shaped (truncate m)
  /\ process m d w = process (truncate m) d w.
Proof.
  assert (E : entries (truncate m) = entries m).
  { unfold entries, truncate. simpl. apply zip3_firstn. }
  split; [exact E |]. split.
  - unfold well_shaped, truncate. simpl. rewrite !length_firstn. lia.
  - rewrite !process_unfold, E. reflexivity.
Qed.

(** C4, as amended. When the processed file list is empty the report's read
    of index 0 raises Python's own [IndexError] ("list index out of range"),
    after the warning on the number of files has been logged; in particular
    a manifest with no entry to visit ends this way. *)
Theorem empty_result_raises_IndexError :
  (forall (out : output_json RunId) (w : W),
      out_file_list out = [] ->
      workflow_report' out w
      = (Raise IndexError, log (LogWarning size_warning) w))
  /\ (forall (m : manifest RunId) (d : string) (w : W),
         entries m = [] ->
         process m d w
         = (Raise IndexError,
            log (LogWarning size_warning) (after_setup d w))).
Proof.
  split.
  - intros out w H. apply report_empty; exact H.
  - intros m d w H. apply process_empty; exact H.
Qed.

(** C5, as amended. With exactly one processed file the report logs no
    warning and hands the first record on; with more than one it logs the
    warning and still hands the first record on, returning the dictionary;
    with none it logs the warning and the read of index 0 then raises
    [IndexError]. *)
Theorem report_warns_unless_one (out : output_json RunId) (w : W) :
  length (out_run_list out) = length (out_file_list out) ->
  length (out_result_list out) = length (out_file_list out) ->
  (length (out_file_list out) = 1 ->
   exists f r x,
     nth_error (out_file_list out) 0 = Some f
     /\ nth_error (out_run_list out) 0 = Some r
     /\ nth_error (out_result_list out) 0 = Some x
     /\ workflow_report' out w
        = (Return out, log (PutWorkflowOutputs f r x "structuring") w))
  /\ (1 < length (out_file_list out) ->
      exists f r x,
        nth_error (out_file_list out) 0 = Some f
        /\ nth_error (out_run_list out) 0 = Some r
        /\ nth_error (out_result_list out) 0 = Some x
        /\ workflow_report' out w
           = (Return out,
              log (PutWorkflowOutputs f r x "structuring")
                  (log (LogWarning size_warning) w)))
  /\ (length (out_file_list out) = 0 ->
      workflow_report' out w
      = (Raise IndexError, log (LogWarning size_warning) w)).
Proof.
  intros Hr Hx. unfold workflow_report', workflow_report.
  destruct (out_file_list out) as [|f fs] eqn:Ef;
    destruct (out_run_list out) as [|r rs] eqn:Er;
    destruct (out_result_list out) as [|x xs] eqn:Ex;
    simpl in Hr, Hx; try discriminate.
  - split; [| split]; intros H; simpl in H; try lia. reflexivity.
  - split; [| split]; intros H; simpl in H; try lia.
    + exists f, r, x. destruct fs; [| simpl in H; lia].
      repeat split; reflexivity.
    + exists f, r, x. destruct fs as [|f' fs]; [simpl in H; lia |].
      repeat split; reflexivity.
Qed.

(** When every validity tag differs from ["valid"]: the branches of the
    loop put the input filenames, verbatim and in order, in
    [invalid_file_list] and leave the four processed lists empty, doing
    nothing else; the report on that result raises [IndexError]; the call
    raises. *)
Lemma all_invalid_returns_nothing (m : manifest RunId) (d : string) (w : W) :
  well_shaped m ->
  Forall (fun v => v <> "valid") (validity m) ->
  let l := {| processed_file_list := []; processed_run_list := [];
              processed_result_list := []; processed_message_list := [];
              invalid_file_list := file_list m |} in
  for_each Datapath RunId (structure_entry' d) (entries m) empty_lists w
  = (Return l, w)
  /\ workflow_report' (make_output_json l) w
     = (Raise IndexError, log (LogWarning size_warning) w)
  /\ exists e w', process m d w = (Raise e, w').
Proof.
  intros [Hv Hr] Hall l.
  destruct (zip3_same_length (file_list m) (validity m) (run_list m) Hv Hr)
    as (Hf & Hval & _).
  split; [| split].
  - rewrite structure_entries_invalid.
    + unfold entries. simpl. rewrite Hf. reflexivity.
    + unfold entries. rewrite <- Hval in Hall.
      rewrite Forall_forall in *. intros e He.
      apply Hall.
      exact (in_map (fun e : string * string * RunId => snd (fst e)) _ e He).
  - apply report_empty. reflexivity.
  - apply process_raises.
Qed.

(** The branch taken for a ["valid"] entry whose file loads and
    structures. *)
Lemma structure_entry_valid (d filename : string) (run_id : RunId)
      (l : lists RunId) (w : W) (cls : datapath_class) (dp dp' : Datapath) :
  lookup (registry schemas) filename = Some cls ->
  from_file cls filename = Return dp ->
  structure dp = Return dp' ->
  structure_entry' d (filename, "valid", run_id) l w =
  (Return {| processed_file_list :=
               (processed_file_list l
                ++ [structured_run_loc (cwd w) d filename])%list;
             processed_run_list := (processed_run_list l ++ [run_id])%list;
             processed_result_list :=
               (processed_result_list l ++ ["success"])%list;
             processed_message_list :=
               (processed_message_list l
                ++ [{| comment := ""; error := "" |}])%list;
             invalid_file_list := invalid_file_list l |},
   log (Dumpfn dp' (structured_run_loc (cwd w) d filename))
       (log (Structure dp) (log (FromFile cls filename) w))).
Proof.
  intros Hl Hf Hs. unfold structure_entry', structure_entry.
  cbn [String.eqb Ascii.eqb Bool.eqb].
  unfold bind at 1. rewrite auto_load_lookup, Hl.
  unfold call_from_file, bind, emit, lift, get_world, ret.
  rewrite Hf. cbn [trace environ cwd dirs]. rewrite Hs. reflexivity.
Qed.

End Batch.

(* ================================================================= *)
(** ** File names *)

Lemma rfind_lower (c : ascii) (p : string) : (-1 <= Str.rfind c p)%Z.
Proof.
  induction p as [|a p IH]; simpl; [lia |].
  destruct (0 <=? Str.rfind c p)%Z eqn:E; [apply Z.leb_le in E; lia |].
  destruct (Ascii.eqb a c); lia.
Qed.

Lemma rfind_upper (c : ascii) (p : string) :
  (Str.rfind c p < Z.of_nat (String.length p))%Z.
Proof.
  induction p as [|a p IH]; simpl String.length; simpl Str.rfind; [lia |].
  destruct (0 <=? Str.rfind c p)%Z; [lia |].
  destruct (Ascii.eqb a c); lia.
Qed.

Lemma rfind_app (c : ascii) (s t : string) :
  Str.rfind c (s ++ t) =
  if (0 <=? Str.rfind c t)%Z
  then (Z.of_nat (String.length s) + Str.rfind c t)%Z
  else Str.rfind c s.
Proof.
  induction s as [|a s IH]; simpl String.length; simpl Str.rfind.
  - simpl. destruct (0 <=? Str.rfind c t)%Z eqn:E; [lia |].
    apply Z.leb_gt in E. pose proof (rfind_lower c t). lia.
  - simpl append. simpl Str.rfind. rewrite IH.
    destruct (0 <=? Str.rfind c t)%Z eqn:E.
    + apply Z.leb_le in E.
      replace (0 <=? Z.of_nat (String.length s) + Str.rfind c t)%Z with true
        by (symmetry; apply Z.leb_le; lia).
      lia.
    + reflexivity.
Qed.

Lemma take_app (s t : string) : Str.take (String.length s) (s ++ t) = s.
Proof. induction s as [|a s IH]; simpl; [now destruct t | now rewrite IH]. Qed.

Lemma drop_app (s t : string) : Str.drop (String.length s) (s ++ t) = t.
Proof. induction s as [|a s IH]; simpl; [reflexivity | exact IH]. Qed.

Lemma rfind_take_none (c : ascii) (p : string) :
  Str.rfind c p = (-1)%Z -> forall n, Str.rfind c (Str.take n p) = (-1)%Z.
Proof.
  induction p as [|a p IH]; intros H [|n]; simpl; try reflexivity.
  simpl in H. pose proof (rfind_lower c p).
  destruct (0 <=? Str.rfind c p)%Z eqn:E; [lia |].
  apply Z.leb_gt in E.
  destruct (Ascii.eqb a c); [discriminate |].
  rewrite IH by lia. reflexivity.
Qed.

(** A base name has no separator left. *)
Lemma basename_no_sep (p : string) :
  Str.rfind OsPath.sep (OsPath.basename p) = (-1)%Z.
Proof.
  unfold OsPath.basename.
  induction p as [|a p IH]; [reflexivity |].
  simpl Str.rfind at 2. pose proof (rfind_lower OsPath.sep p).
  destruct (0 <=? Str.rfind OsPath.sep p)%Z eqn:E.
  - apply Z.leb_le in E.
    replace (Z.to_nat (Str.rfind OsPath.sep p + 1 + 1))
      with (S (Z.to_nat (Str.rfind OsPath.sep p + 1))) by lia.
    exact IH.
  - apply Z.leb_gt in E.
    assert (Er : Str.rfind OsPath.sep p = (-1)%Z) by lia.
    destruct (Ascii.eqb a OsPath.sep) eqn:Ea.
    + simpl. exact Er.
    + simpl. rewrite Er, Ea. reflexivity.
Qed.

Lemma splitext_fst_no_sep (p : string) :
  Str.rfind OsPath.sep p = (-1)%Z ->
  Str.rfind OsPath.sep (fst (OsPath.splitext p)) = (-1)%Z.
Proof.
  intros H. unfold OsPath.splitext.
  destruct (_ <? _)%Z; [| exact H].
  destruct (Str.has_other _ _); [| exact H].
  simpl. apply rfind_take_none; exact H.
Qed.

(** What [add_suffix_to_filename] does to a name that ends in [.json]. *)
Lemma add_suffix_json (stem : string) :
  add_suffix_to_filename (stem ++ ".json") "_structure" =
  (if endswith_str "_structure" stem then stem else stem ++ "_structure")
  ++ ".json".
Proof.
  assert (Hd : Str.rfind OsPath.extsep (stem ++ ".json")
               = Z.of_nat (String.length stem)).
  { rewrite rfind_app.
    change (Str.rfind OsPath.extsep ".json") with 0%Z. simpl. lia. }
  unfold add_suffix_to_filename. rewrite Hd.
  replace (0 <=? Z.of_nat (String.length stem))%Z with true
    by (symmetry; apply Z.leb_le; lia).
  rewrite Nat2Z.id, take_app, drop_app.
  destruct (endswith_str "_structure" stem); [reflexivity |].
  symmetry. apply append_assoc.
Qed.

Lemma structured_run_loc_eq (cwd d filename : string) :
  structured_run_loc cwd d filename =
  OsPath.abspath cwd
    (OsPath.join d
       (add_suffix_to_filename
          (fst (OsPath.splitext (OsPath.basename filename)) ++ ".json")
          "_structure")).
Proof.
  unfold structured_run_loc.
  destruct (OsPath.splitext (OsPath.basename filename)); reflexivity.
Qed.

Section Location.

Variable Datapath : Type.
Variable RunId : Type.
Variable from_file : datapath_class -> string -> result Datapath.
Variable structure : Datapath -> result Datapath.
Variable schemas : conversion_schemas.

Let W := world Datapath RunId.
Let structure_entry' := structure_entry Datapath RunId from_file structure schemas.
Let workflow_report' := workflow_report Datapath RunId.

(** What the two branches of the loop build when every entry is valid and
    every file loads and structures. *)
Lemma structure_entries_valid (d : string)
      (es : list (string * string * RunId)) :
  Forall (structures_well from_file structure schemas) es ->
  forall (l : lists RunId) (w : W),
  exists l' w',
    for_each Datapath RunId (structure_entry' d) es l w = (Return l', w')
    /\ cwd w' = cwd w
    /\ processed_file_list l' =
       (processed_file_list l
        ++ map (fun e => structured_run_loc (cwd w) d (fst (fst e))) es)%list
    /\ processed_run_list l' = (processed_run_list l ++ map snd es)%list
    /\ processed_result_list l' =
       (processed_result_list l ++ repeat "success" (length es))%list
    /\ processed_message_list l' =
       (processed_message_list l
        ++ repeat {| comment := ""; error := "" |} (length es))%list
    /\ invalid_file_list l' = invalid_file_list l.
Proof.
  induction 1 as [|[[filename v] run_id] es He _ IH]; intros l w.
  - exists l, w. simpl. rewrite !app_nil_r. repeat split; reflexivity.
  - destruct He as (Hv & cls & dp & dp' & Hl & Hf & Hs).
    simpl in Hv, Hl, Hf. subst v.
    cbn [for_each]. unfold bind at 1. unfold structure_entry'.
    rewrite (structure_entry_valid _ _ _ _ _ d filename run_id l w cls dp dp'
               Hl Hf Hs).
    fold structure_entry'.
    match goal with
    | |- context [for_each _ _ _ es ?l1 ?w1] =>
        destruct (IH l1 w1) as (l' & w' & E & Hc & H1 & H2 & H3 & H4 & H5)
    end.
    exists l', w'. simpl in *. rewrite <- !app_assoc in *. simpl in *.
    repeat split; assumption.
Qed.




End Location.

(* ================================================================= *)
(** ** What the loop's branches and the report do on valid files *)

Lemma report_returns {Datapath RunId} (out : output_json RunId)
      (w : world Datapath RunId) :
  out_file_list out <> [] -> out_run_list out <> [] ->
  out_result_list out <> [] ->
  exists w', workflow_report Datapath RunId out w = (Return out, w').
Proof.
  unfold workflow_report.
  destruct (out_file_list out) as [|f fs]; [congruence |].
  destruct (out_run_list out) as [|r rs]; [congruence |].
  destruct (out_result_list out) as [|x xs]; [congruence |].
  intros _ _ _. destruct fs; eexists; reflexivity.
Qed.

Lemma zip3_length {A B C : Type} (a : list A) :
  forall (b : list B) (c : list C),
    length b = length a -> length c = length a ->
    length (zip3 a b c) = length a.
Proof.
  induction a as [|x a IH]; intros [|y b] [|z c] Hb Hc;
    simpl in *; try discriminate; auto.
Qed.

(** Were the loop to run its branches on a well-shaped, non-empty manifest
    whose entries are all valid and all load and structure, the dictionary
    handed to the report -- and returned by it -- would have one processed
    entry per input file and no invalid file. *)
Lemma all_valid_branches_and_report {Datapath RunId}
      (from_file : datapath_class -> string -> result Datapath)
      (structure : Datapath -> result Datapath)
      (schemas : conversion_schemas)
      (m : manifest RunId) (d : string) (w : world Datapath RunId) :
  well_shaped m ->
  file_list m <> [] ->
  Forall (structures_well from_file structure schemas) (entries m) ->
  exists l w' w'',
    for_each Datapath RunId
             (structure_entry Datapath RunId from_file structure schemas d)
             (entries m) empty_lists w = (Return l, w')
    /\ workflow_report Datapath RunId (make_output_json l) w'
       = (Return (make_output_json l), w'')
    /\ out_invalid_file_list (make_output_json l) = []
    /\ length (out_file_list (make_output_json l)) = length (file_list m)
    /\ out_run_list (make_output_json l) = run_list m
    /\ out_result_list (make_output_json l)
       = repeat "success" (length (file_list m))
    /\ out_message_list (make_output_json l)
       = repeat {| comment := ""; error := "" |} (length (file_list m)).
Proof.
  intros [Hv Hr] Hne Hall.
  destruct (structure_entries_valid Datapath RunId from_file structure schemas
              d (entries m) Hall empty_lists w)
    as (l & w' & E & _ & H1 & H2 & H3 & H4 & H5).
  simpl in H1, H2, H3, H4, H5.
  pose proof (zip3_length (file_list m) (validity m) (run_list m) Hv Hr) as Hlen.
  destruct (zip3_same_length (file_list m) (validity m) (run_list m) Hv Hr)
    as (_ & _ & Hruns).
  fold (entries m) in Hlen, Hruns. rewrite Hlen in H3, H4. rewrite Hruns in H2.
  assert (Hpos : length (file_list m) <> 0).
  { destruct (file_list m); [congruence | discriminate]. }
  destruct (report_returns (make_output_json l) w') as [w'' Hrep].
  - simpl. rewrite H1. intros E0. apply (f_equal (@length _)) in E0.
    rewrite length_map, Hlen in E0. simpl in E0. lia.
  - simpl. rewrite H2. intros E0. apply (f_equal (@length _)) in E0.
    rewrite Hr in E0. simpl in E0. lia.
  - simpl. rewrite H3. intros E0. apply (f_equal (@length _)) in E0.
    rewrite repeat_length in E0. simpl in E0. lia.
  - exists l, w', w''. simpl. rewrite H1, length_map, Hlen.
    repeat split; assumption.
Qed.

(* ================================================================= *)
(** ** The theorems at concrete manifests *)

Lemma sample_unmatched (filename : string) :
  lookup (registry Sample.schemas) filename = None ->
  forall pattern cls, In (pattern, cls) (registry Sample.schemas) ->
                      Re.re_match pattern filename = false.
Proof. intros H. apply lookup_none; exact H. Qed.

Lemma nonempty_manifest_raises_NameError_witness :
  entries Sample.one_valid <> []
  /\ Sample.run Sample.one_valid Sample.w0
     = (Raise (NameError "s"),
        after_setup "data-share/structure/" Sample.w0).
Proof.
  assert (H : entries Sample.one_valid <> []) by discriminate.
  split; [exact H |].
  exact (proj1 (proj2 (nonempty_manifest_raises_NameError
                         string Z Sample.from_file Sample.structure
                         Sample.schemas Sample.one_valid
                         "data-share/structure/" Sample.w0 H))).
Defined.

Lemma unmatched_file_aborts_batch_witness :
  lookup (registry Sample.schemas) "unknown.dat" = None
  /\ auto_load string Z Sample.from_file Sample.schemas "unknown.dat" Sample.w0
     = (Raise (ValueError "unknown.dat does not match any known file pattern"),
        Sample.w0).
Proof.
  assert (H : lookup (registry Sample.schemas) "unknown.dat" = None)
    by reflexivity.
  split; [exact H |].
  exact (proj1 (unmatched_file_aborts_batch
                  string Z Sample.from_file Sample.structure Sample.schemas
                  "unknown.dat" (sample_unmatched "unknown.dat" H))
               Sample.w0).
Defined.

(** C2, refuted as stated: with an unrecognised file first and a
    recognisable one second, the call raises and the second file is never
    loaded; the loop's branches alone stop at the first file with
    [ValueError]. *)
Lemma unmatched_file_stops_the_batch :
  lookup (registry Sample.schemas) "unknown.dat" = None
  /\ lookup (registry Sample.schemas) "cellA_2019.csv" = Some ArbinDatapath
  /\ for_each string Z
       (structure_entry string Z Sample.from_file Sample.structure
                        Sample.schemas "/data-share/structure/")
       (entries Sample.unknown_first) empty_lists Sample.w0
     = (Raise (ValueError "unknown.dat does not match any known file pattern"),
        Sample.w0)
  /\ Sample.run Sample.unknown_first Sample.w0
     = (Raise (NameError "s"),
        {| environ := []; cwd := "/home/beep";
           dirs := ["/data-share/structure/"];
           trace := [MakeDirs "/data-share/structure/"] |}).
Proof. repeat split; vm_compute; reflexivity. Qed.

(** C3, refuted as stated: a manifest of two files, one validity tag and one
    run id is not rejected for its shape; the loop is entered, and the call
    ends exactly as on the well-shaped manifest of the first file alone. *)
Lemma misshapen_manifest_is_not_rejected :
  ~ well_shaped Sample.misshapen
  /\ entries Sample.misshapen = [("cellA_1.csv", "valid", 7%Z)]
  /\ Sample.run Sample.misshapen Sample.w0
     = Sample.run {| file_list := ["cellA_1.csv"]; validity := ["valid"];
                     run_list := [7%Z] |} Sample.w0
  /\ fst (Sample.run Sample.misshapen Sample.w0) = Raise (NameError "s")
  /\ fst (for_each string Z
            (structure_entry string Z Sample.from_file Sample.structure
                             Sample.schemas "/data-share/structure/")
            (entries Sample.misshapen) empty_lists Sample.w0)
     = Return {| processed_file_list :=
                   ["/data-share/structure/cellA_1_structure.json"];
                 processed_run_list := [7%Z];
                 processed_result_list := ["success"];
                 processed_message_list := [{| comment := ""; error := "" |}];
                 invalid_file_list := [] |}.
Proof.
  split.
  - intros [H _]. discriminate H.
  - repeat split; vm_compute; reflexivity.
Qed.

Lemma empty_result_raises_IndexError_witness :
  entries Sample.empty = []
  /\ Sample.run Sample.empty Sample.w0
     = (Raise IndexError,
        log (LogWarning size_warning)
            (after_setup "data-share/structure/" Sample.w0)).
Proof.
  assert (H : entries Sample.empty = []) by reflexivity.
  split; [exact H |].
  exact (proj2 (empty_result_raises_IndexError
                  string Z Sample.from_file Sample.structure Sample.schemas)
               Sample.empty "data-share/structure/" Sample.w0 H).
Defined.

(** C4, refuted as stated: on the empty manifest the processed list is empty
    and the call raises [IndexError] ("list index out of range"), the
    indexing fault itself, not an [EmptyBatchResult]. *)
Lemma empty_batch_is_an_indexing_fault :
  Sample.run Sample.empty Sample.w0
  = (Raise (PyExc "IndexError" "list index out of range"),
     {| environ := []; cwd := "/home/beep";
        dirs := ["/data-share/structure/"];
        trace := [MakeDirs "/data-share/structure/";
                  LogWarning size_warning] |})
  /\ exn_class IndexError <> "EmptyBatchResult".
Proof. split; [vm_compute; reflexivity | discriminate]. Qed.

Lemma report_warns_unless_one_witness :
  length (out_run_list (make_output_json (@empty_lists Z)))
  = length (out_file_list (make_output_json (@empty_lists Z)))
  /\ length (out_result_list (make_output_json (@empty_lists Z)))
     = length (out_file_list (make_output_json (@empty_lists Z)))
  /\ length (out_file_list (make_output_json (@empty_lists Z))) = 0
  /\ workflow_report string Z (make_output_json empty_lists) Sample.w0
     = (Raise IndexError, log (LogWarning size_warning) Sample.w0).
Proof.
  split; [reflexivity |]. split; [reflexivity |]. split; [reflexivity |].
  exact (proj2 (proj2 (report_warns_unless_one
                         string Z (make_output_json empty_lists) Sample.w0
                         eq_refl eq_refl))
               eq_refl).
Defined.

(** C5, refuted as stated: with no processed file the warning is logged and
    the call then raises. *)
Lemma empty_batch_warns_then_raises :
  length (file_list Sample.empty) <> 1
  /\ In (LogWarning size_warning)
        (trace (snd (Sample.run Sample.empty Sample.w0)))
  /\ fst (Sample.run Sample.empty Sample.w0) = Raise IndexError.
Proof.
  split; [discriminate |]. split.
  - vm_compute. right; left; reflexivity.
  - vm_compute. reflexivity.
Qed.

(** C6: the code at the spec's example manifest, one valid file that is
    recognised, loads and structures. The call raises [NameError] having only
    created the output directory; the branches and the report alone would
    have produced the dictionary of the spec's example. *)
Theorem one_valid_file_raises_NameError :
  Sample.run Sample.one_valid Sample.w0
  = (Raise (NameError "s"),
     {| environ := []; cwd := "/home/beep";
        dirs := ["/data-share/structure/"];
        trace := [MakeDirs "/data-share/structure/"] |})
  /\ fst (for_each string Z
            (structure_entry string Z Sample.from_file Sample.structure
                             Sample.schemas "/data-share/structure/")
            (entries Sample.one_valid) empty_lists Sample.w0)
     = Return {| processed_file_list :=
                   ["/data-share/structure/cellA_2019_structure.json"];
                 processed_run_list := [42%Z];
                 processed_result_list := ["success"];
                 processed_message_list := [{| comment := ""; error := "" |}];
                 invalid_file_list := [] |}.
Proof. split; vm_compute; reflexivity. Qed.

(** C7: the code at a manifest of two files, neither of them valid. The
    call raises [NameError] at the logging call of the first iteration,
    having only created the output directory, and returns no dictionary;
    the two branches of the loop alone do put the file names, verbatim and
    in order, in [invalid_file_list] and leave the processed lists empty, as
    the claim has it of the returned manifest. *)
Theorem all_invalid_manifest_raises_NameError :
  Forall (fun v => v <> "valid") (validity Sample.all_invalid)
  /\ Sample.run Sample.all_invalid Sample.w0
     = (Raise (NameError "s"),
        {| environ := []; cwd := "/home/beep";
           dirs := ["/data-share/structure/"];
           trace := [MakeDirs "/data-share/structure/"] |})
  /\ for_each string Z
       (structure_entry string Z Sample.from_file Sample.structure
                        Sample.schemas "/data-share/structure/")
       (entries Sample.all_invalid) empty_lists Sample.w0
     = (Return {| processed_file_list := []; processed_run_list := [];
                  processed_result_list := []; processed_message_list := [];
                  invalid_file_list := file_list Sample.all_invalid |},
        Sample.w0).
Proof.
  split; [repeat constructor; discriminate |].
  split; vm_compute; reflexivity.
Qed.

Lemma auto_load_first_match_wins_witness :
  let tagged := fun (cls : datapath_class) (filename : string) =>
                  Return (match cls with
                          | ArbinDatapath => "arbin:"
                          | MaccorDatapath => "maccor:"
                          | NewareDatapath => "neware:"
                          | IndigoDatapath => "indigo:"
                          | BiologicDatapath => "biologic:"
                          end ++ filename) in
  (Re.re_match Sample.pat_cellA "cellA_2019.csv" = true
   /\ Re.re_match (Re.lit "cell") "cellA_2019.csv" = true
   /\ auto_load string Z tagged Sample.schemas "cellA_2019.csv" Sample.w0
      = (Return "arbin:cellA_2019.csv",
         log (FromFile ArbinDatapath "cellA_2019.csv") Sample.w0))
  /\ (Re.re_match Sample.pat_cellA "cellB_7.txt" = false
      /\ Re.re_match (Re.lit "fast") "cellB_7.txt" = false
      /\ Re.re_match (Re.lit "cell") "cellB_7.txt" = true
      /\ auto_load string Z tagged Sample.schemas "cellB_7.txt" Sample.w0
         = (Return "maccor:cellB_7.txt",
            log (FromFile MaccorDatapath "cellB_7.txt") Sample.w0)).
Proof.
  intros tagged. split.
  - split; [reflexivity |]. split; [reflexivity |].
    destruct (auto_load_first_match_wins
                string Z tagged Sample.schemas "cellA_2019.csv" Sample.w0)
      as (H & _).
    exact (H eq_refl).
  - split; [reflexivity |]. split; [reflexivity |]. split; [reflexivity |].
    destruct (auto_load_first_match_wins
                string Z tagged Sample.schemas "cellB_7.txt" Sample.w0)
      as (_ & _ & H & _).
    exact (H eq_refl eq_refl eq_refl).
Defined.


Lemma auto_load_matches_whole_entry_witness :
  matches_prefix Sample.pat_cellA "cellA_2019.csv"
  /\ auto_load string Z Sample.from_file Sample.schemas "cellA_2019.csv"
     = call_from_file string Z Sample.from_file ArbinDatapath "cellA_2019.csv".
Proof.
  assert (H : matches_prefix Sample.pat_cellA "cellA_2019.csv").
  { apply re_match_prefix. reflexivity. }
  split; [exact H |].
  apply (proj1 (auto_load_matches_whole_entry
                  string Z Sample.from_file Sample.schemas "cellA_2019.csv")
               0 Sample.pat_cellA ArbinDatapath).
  - reflexivity.
  - exact H.
  - intros j q c Hj. apply Nat.nlt_0_r in Hj. destruct Hj.
Defined.

(** C10, refuted as stated: the file name [cellA_2019.csv] of the entry
    [/data/cellA_2019.csv] matches the Arbin pattern, yet [auto_load], which
    matches the whole entry, finds no pattern for it. *)
Lemma dispatch_matches_the_full_path :
  OsPath.basename "/data/cellA_2019.csv" = "cellA_2019.csv"
  /\ lookup (registry Sample.schemas) (OsPath.basename "/data/cellA_2019.csv")
     = Some ArbinDatapath
  /\ lookup (registry Sample.schemas) "/data/cellA_2019.csv" = None
  /\ auto_load string Z Sample.from_file Sample.schemas "/data/cellA_2019.csv"
               Sample.w0
     = (Raise (ValueError
                 "/data/cellA_2019.csv does not match any known file pattern"),
        Sample.w0).
Proof. repeat split; vm_compute; reflexivity. Qed.

(* ================================================================= *)
(** ** Further properties of the batch function *)


Section Whole.

Variable Datapath : Type.
Variable RunId : Type.
Variable from_file : datapath_class -> string -> result Datapath.
Variable structure : Datapath -> result Datapath.
Variable schemas : conversion_schemas.
Variable loadfn : string -> result (parsed RunId).
Variable json_loads : string -> result (parsed RunId).
Variable workflow_outputs : result unit.
Variable makedirs_error : string -> option exn.

Let W := world Datapath RunId.
Let process := process_file_list_from_json Datapath RunId from_file structure schemas.
Let process_json :=
  process_file_list_json Datapath RunId from_file structure schemas
                         loadfn json_loads.
Let load := load_file_list_data Datapath RunId loadfn json_loads.
Let structure_entry' := structure_entry Datapath RunId from_file structure schemas.
Let ensure := ensure_processed_dir Datapath RunId.

Lemma load_keeps_world (s : string) (w : W) : snd (load s w) = w.
Proof.
  unfold load, load_file_list_data. destruct (endswith_str ".json" s);
    reflexivity.
Qed.

Lemma load_pair (s : string) (w : W) : load s w = (fst (load s w), w).
Proof.
  rewrite <- (load_keeps_world s w) at 3. destruct (load s w); reflexivity.
Qed.


Lemma process_json_loaded (s d : string) (w : W) (p : parsed RunId) :
  fst (load s w) = Return p ->
  process_json s d w =
  match key_file_list p, key_validity p, key_run_list p with
  | Some fl, Some v, Some r =>
      process {| file_list := fl; validity := v; run_list := r |} d w
  | None, _, _ => (Raise (KeyError "file_list"), after_setup d w)
  | Some _, None, _ => (Raise (KeyError "validity"), after_setup d w)
  | Some _, Some _, None => (Raise (KeyError "run_list"), after_setup d w)
  end.
Proof.
  intros H. unfold process_json, process_file_list_json. unfold bind at 1.
  fold load. rewrite load_pair, H.
  unfold process, process_file_list_from_json, resolve_processed_dir,
    ensure_processed_dir, path_exists, after_setup.
  destruct (key_file_list p) as [fl|], (key_validity p) as [v|],
    (key_run_list p) as [r|];
    try reflexivity;
    unfold bind, get_world, ret, subscript, raise, makedirs; simpl;
    destruct (existsb _ (dirs w)); reflexivity.
Qed.

Lemma after_setup_has_dir (d : string) (w : W) :
  existsb (String.eqb (OsPath.join
                         (environ_get (environ w) "BEEP_PROCESSING_DIR" "/") d))
          (dirs (after_setup d w)) = true.
Proof.
  unfold after_setup.
  destruct (existsb _ (dirs w)) eqn:E; [exact E |].
  simpl. rewrite String.eqb_refl. reflexivity.
Qed.








(** X2. When the parsed dictionary lacks one of the three keys the call
    raises [KeyError] for the first missing one, in the order [file_list],
    [validity], [run_list] -- and only after the output directory has been
    created. *)
Theorem missing_key_raises_KeyError (s d : string) (w : W) (p : parsed RunId) :
  fst (load s w) = Return p ->
  (key_file_list p = None ->
   process_json s d w = (Raise (KeyError "file_list"), after_setup d w))
  /\ (key_file_list p <> None -> key_validity p = None ->
      process_json s d w = (Raise (KeyError "validity"), after_setup d w))
  /\ (key_file_list p <> None -> key_validity p <> None ->
      key_run_list p = None ->
      process_json s d w = (Raise (KeyError "run_list"), after_setup d w))
  /\ existsb (String.eqb (OsPath.join
                            (environ_get (environ w) "BEEP_PROCESSING_DIR" "/")
                            d))
             (dirs (after_setup d w)) = true.
Proof.
  intros H. rewrite (process_json_loaded s d w p H).
  split; [| split; [| split]].
  - intros ->. reflexivity.
  - intros Hf ->. destruct (key_file_list p); [reflexivity | congruence].
  - intros Hf Hv ->.
    destruct (key_file_list p); [| congruence].
    destruct (key_validity p); [reflexivity | congruence].
  - apply after_setup_has_dir.
Qed.

(** X3. Making sure of the output directory a second time changes nothing:
    the directory is created at most once, it is there afterwards, and no
    directory already known is lost. *)
Theorem ensure_processed_dir_idempotent (d : string) (w : W) :
  bind Datapath RunId (ensure d) (fun _ => ensure d) w = ensure d w
  /\ existsb (String.eqb d) (dirs (snd (ensure d w))) = true
  /\ (forall x, In x (dirs w) -> In x (dirs (snd (ensure d w)))).
Proof.
  unfold ensure, ensure_processed_dir, path_exists, bind, get_world, ret,
    makedirs.
  destruct (existsb (String.eqb d) (dirs w)) eqn:E; simpl.
  - rewrite E. auto.
  - rewrite String.eqb_refl. simpl. auto.
Qed.

(** X4. A failure while loading or structuring a valid file is not caught:
    the exception of [from_file] or of [structure] leaves the loop as it is,
    the entries after it are not visited, the file is not dumped, and what
    was dumped for earlier entries stays done. *)
Theorem handler_failure_aborts_loop
        (d : string) (pre post : list (string * string * RunId))
        (filename : string) (run_id : RunId) (l l' : lists RunId) (w w' : W)
        (cls : datapath_class) (err : exn) :
  for_each Datapath RunId (structure_entry' d) pre l w = (Return l', w') ->
  lookup (registry schemas) filename = Some cls ->
  (from_file cls filename = Raise err ->
   for_each Datapath RunId (structure_entry' d)
            (pre ++ (filename, "valid", run_id) :: post) l w
   = (Raise err, log (FromFile cls filename) w'))
  /\ (forall dp, from_file cls filename = Return dp ->
                 structure dp = Raise err ->
                 for_each Datapath RunId (structure_entry' d)
                          (pre ++ (filename, "valid", run_id) :: post) l w
                 = (Raise err,
                    log (Structure dp) (log (FromFile cls filename) w'))).
Proof.
  intros Hpre Hl.
  assert (Hstep : forall r,
             structure_entry' d (filename, "valid", run_id) l' w' = (Raise err, r) ->
             for_each Datapath RunId (structure_entry' d)
                      (pre ++ (filename, "valid", run_id) :: post) l w
             = (Raise err, r)).
  { intros r Hr. rewrite for_each_app. unfold bind at 1. rewrite Hpre.
    cbn [for_each]. unfold bind at 1. rewrite Hr. reflexivity. }
  split.
  - intros Hf. apply Hstep.
    unfold structure_entry', structure_entry.
    cbn [String.eqb Ascii.eqb Bool.eqb].
    unfold bind at 1. rewrite auto_load_lookup, Hl.
    unfold call_from_file, bind, emit, lift. rewrite Hf. reflexivity.
  - intros dp Hf Hs. apply Hstep.
    unfold structure_entry', structure_entry.
    cbn [String.eqb Ascii.eqb Bool.eqb].
    unfold bind at 1. rewrite auto_load_lookup, Hl.
    unfold call_from_file, bind, emit, lift. rewrite Hf.
    cbn [trace environ cwd dirs]. rewrite Hs. reflexivity.
Qed.

End Whole.

Section Branches.

Variable Datapath : Type.
Variable RunId : Type.
Variable from_file : datapath_class -> string -> result Datapath.
Variable structure : Datapath -> result Datapath.
Variable schemas : conversion_schemas.

Let W := world Datapath RunId.
Let structure_entry' := structure_entry Datapath RunId from_file structure schemas.

Lemma structure_entry_invalid (d filename v : string) (run_id : RunId)
      (l : lists RunId) (w : W) :
  String.eqb v "valid" = false ->
  structure_entry' d (filename, v, run_id) l w =
  (Return {| processed_file_list := processed_file_list l;
             processed_run_list := processed_run_list l;
             processed_result_list := processed_result_list l;
             processed_message_list := processed_message_list l;
             invalid_file_list := (invalid_file_list l ++ [filename])%list |},
   w).
Proof.
  intros H. unfold structure_entry', structure_entry. rewrite H. reflexivity.
Qed.

(** X5. On a manifest that mixes valid and other entries, the branches of
    the loop split the entries in two, each kept in manifest order: the
    valid ones give the processed lists (location, run id, "success" and an
    empty message each), the others give [invalid_file_list]; so the four
    processed lists grow by the same number and every entry lands in exactly
    one of the two groups. This needs every valid file to load and
    structure. *)
Theorem branches_partition_entries
        (d : string) (es : list (string * string * RunId)) :
  Forall (fun e => is_valid e = true ->
                   structures_well from_file structure schemas e) es ->
  forall (l : lists RunId) (w : W),
  exists l' w',
    for_each Datapath RunId (structure_entry' d) es l w = (Return l', w')
    /\ cwd w' = cwd w /\ dirs w' = dirs w
    /\ processed_file_list l' =
       (processed_file_list l
        ++ map (fun e => structured_run_loc (cwd w) d (fst (fst e)))
               (filter is_valid es))%list
    /\ processed_run_list l' =
       (processed_run_list l ++ map snd (filter is_valid es))%list
    /\ processed_result_list l' =
       (processed_result_list l
        ++ repeat "success" (length (filter is_valid es)))%list
    /\ processed_message_list l' =
       (processed_message_list l
        ++ repeat {| comment := ""; error := "" |}
                  (length (filter is_valid es)))%list
    /\ invalid_file_list l' =
       (invalid_file_list l
        ++ map (fun e => fst (fst e))
               (filter (fun e => negb (is_valid e)) es))%list
    /\ length (filter is_valid es)
       + length (filter (fun e => negb (is_valid e)) es) = length es.
Proof.
  induction 1 as [|[[filename v] run_id] es He _ IH]; intros l w.
  - exists l, w. simpl. rewrite !app_nil_r. repeat split; reflexivity.
  - cbn [for_each filter]. unfold bind at 1.
    destruct (is_valid (filename, v, run_id)) eqn:Ev.
    + destruct (He eq_refl) as (Hv & cls & dp & dp' & Hl & Hf & Hs).
      cbn [fst snd] in Hv, Hl, Hf. subst v.
      unfold structure_entry'.
      rewrite (structure_entry_valid _ _ _ _ _ d filename run_id l w cls dp dp'
                 Hl Hf Hs).
      fold structure_entry'.
      match goal with
      | |- context [for_each _ _ _ es ?l1 ?w1] =>
          destruct (IH l1 w1)
            as (l' & w' & E & Hc & Hd & H1 & H2 & H3 & H4 & H5 & H6)
      end.
      exists l', w'.
      cbn [negb map length repeat fst snd processed_file_list processed_run_list
           processed_result_list processed_message_list invalid_file_list
           log cwd dirs] in *.
      rewrite <- !app_assoc in *.
      split; [exact E |]. split; [exact Hc |]. split; [exact Hd |].
      split; [exact H1 |]. split; [exact H2 |]. split; [exact H3 |].
      split; [exact H4 |]. split; [exact H5 |].
      cbn [Nat.add]. f_equal. exact H6.
    + assert (Hv : String.eqb v "valid" = false) by exact Ev.
      rewrite (structure_entry_invalid d filename v run_id l w Hv).
      match goal with
      | |- context [for_each _ _ _ es ?l1 ?w1] =>
          destruct (IH l1 w1)
            as (l' & w' & E & Hc & Hd & H1 & H2 & H3 & H4 & H5 & H6)
      end.
      exists l', w'.
      cbn [negb map length repeat fst snd processed_file_list processed_run_list
           processed_result_list processed_message_list invalid_file_list
           log cwd dirs] in *.
      rewrite <- !app_assoc in *.
      split; [exact E |]. split; [exact Hc |]. split; [exact Hd |].
      split; [exact H1 |]. split; [exact H2 |]. split; [exact H3 |].
      split; [exact H4 |]. split; [exact H5 |].
      rewrite Nat.add_succ_r. f_equal. exact H6.
Qed.

End Branches.

(* ================================================================= *)
(** ** Further properties of the output location *)

Lemma basename_no_sep_id (p : string) :
  Str.rfind OsPath.sep p = (-1)%Z -> OsPath.basename p = p.
Proof. intros H. unfold OsPath.basename. rewrite H. reflexivity. Qed.

Lemma drop_app_succ (pre : string) (a : ascii) (t : string) :
  Str.drop (S (String.length pre)) (pre ++ String a t) = t.
Proof. induction pre as [|b pre IH]; simpl; [reflexivity | exact IH]. Qed.

Lemma rfind_head (c : ascii) (t : string) :
  Str.rfind c t = (-1)%Z -> Str.rfind c (String c t) = 0%Z.
Proof. intros H. simpl. rewrite H, Ascii.eqb_refl. reflexivity. Qed.

Lemma basename_under_dir (dir name : string) :
  Str.rfind OsPath.sep name = (-1)%Z ->
  OsPath.basename (dir ++ String OsPath.sep name) = name.
Proof.
  intros H.
  assert (Hr : Str.rfind OsPath.sep (dir ++ String OsPath.sep name)
               = Z.of_nat (String.length dir)).
  { rewrite rfind_app, (rfind_head _ _ H). simpl. lia. }
  unfold OsPath.basename. rewrite Hr.
  replace (Z.to_nat (Z.of_nat (String.length dir) + 1))
    with (S (String.length dir)) by lia.
  apply drop_app_succ.
Qed.

Lemma splitext_stem_ext (stem ext : string) :
  Str.rfind OsPath.sep stem = (-1)%Z ->
  Str.rfind OsPath.sep ext = (-1)%Z ->
  Str.rfind OsPath.extsep ext = (-1)%Z ->
  OsPath.splitext (stem ++ String OsPath.extsep ext) =
  if Str.has_other OsPath.extsep stem
  then (stem, String OsPath.extsep ext)
  else (stem ++ String OsPath.extsep ext, "").
Proof.
  intros Hs He Hd.
  assert (Hdot : Str.rfind OsPath.extsep (stem ++ String OsPath.extsep ext)
                 = Z.of_nat (String.length stem)).
  { rewrite rfind_app, (rfind_head _ _ Hd). simpl. lia. }
  assert (Hsep : Str.rfind OsPath.sep (stem ++ String OsPath.extsep ext)
                 = (-1)%Z).
  { rewrite rfind_app. simpl (Str.rfind OsPath.sep (String _ ext)).
    rewrite He. simpl. exact Hs. }
  unfold OsPath.splitext. rewrite Hdot, Hsep.
  replace (-1 <? Z.of_nat (String.length stem))%Z with true
    by (symmetry; apply Z.ltb_lt; lia).
  simpl (Z.to_nat (-1 + 1)). rewrite Nat2Z.id, Nat.sub_0_r.
  simpl (Str.drop 0 _). rewrite take_app, drop_app. reflexivity.
Qed.

Lemma normpath_absolute (p : string) :
  OsPath.isabs p = true -> OsPath.isabs (OsPath.normpath p) = true.
Proof.
  destruct p as [|c p]; [discriminate |].
  unfold OsPath.isabs at 1. intros H.
  unfold OsPath.normpath. rewrite H.
  destruct (_ && _); reflexivity.
Qed.

Lemma join_absolute_l (a b : string) :
  OsPath.isabs a = true -> OsPath.isabs (OsPath.join a b) = true.
Proof.
  unfold OsPath.join. intros Ha.
  destruct (Str.startswith OsPath.sep b) eqn:Eb; [exact Eb |].
  destruct a as [|c a]; [discriminate |].
  destruct (_ || _); exact Ha.
Qed.

(** X6. The output location is computed from the base name of the input
    alone: the directories of the input path play no part, so two inputs
    with the same file name in different directories are written to the
    same place. *)
Theorem location_ignores_directories (cwd d : string) :
  (forall filename,
      structured_run_loc cwd d filename
      = structured_run_loc cwd d (OsPath.basename filename))
  /\ (forall dir name,
         Str.rfind OsPath.sep name = (-1)%Z ->
         structured_run_loc cwd d (dir ++ String OsPath.sep name)
         = structured_run_loc cwd d name).
Proof.
  assert (H : forall filename,
             structured_run_loc cwd d filename
             = structured_run_loc cwd d (OsPath.basename filename)).
  { intros filename. unfold structured_run_loc.
    rewrite (basename_no_sep_id (OsPath.basename filename))
      by apply basename_no_sep.
    reflexivity. }
  split; [exact H |].
  intros dir name Hn. rewrite H, (basename_under_dir dir name Hn). reflexivity.
Qed.

(** The location for a name [stem.ext]. *)
Lemma structured_run_loc_stem_ext (cwd d stem ext : string) :
  Str.rfind OsPath.sep stem = (-1)%Z ->
  Str.rfind OsPath.sep ext = (-1)%Z ->
  Str.rfind OsPath.extsep ext = (-1)%Z ->
  Str.has_other OsPath.extsep stem = true ->
  structured_run_loc cwd d (stem ++ String OsPath.extsep ext)
  = OsPath.abspath cwd
      (OsPath.join d
         ((if endswith_str "_structure" stem
           then stem else stem ++ "_structure") ++ ".json")).
Proof.
  intros Hs He Hd Hdots.
  assert (Hsep : Str.rfind OsPath.sep (stem ++ String OsPath.extsep ext)
                 = (-1)%Z).
  { rewrite rfind_app. simpl (Str.rfind OsPath.sep (String _ ext)).
    rewrite He. simpl. exact Hs. }
  rewrite structured_run_loc_eq, (basename_no_sep_id _ Hsep),
    (splitext_stem_ext stem ext Hs He Hd), Hdots.
  cbn [fst]. rewrite (add_suffix_json stem). reflexivity.
Qed.

(** X7. The extension of the input does not show in the output location: for
    a name [stem.ext] whose stem is not made of dots alone (neither part
    holding a separator, [ext] holding no dot), the file written is
    [stem_structure.json] in the output directory -- [stem.json] when the
    stem already ends in [_structure] -- whatever [ext] is; inputs that
    differ in their extension only are written to the same place. *)
Theorem location_ignores_extension (cwd d stem ext1 ext2 : string) :
  Str.rfind OsPath.sep stem = (-1)%Z ->
  Str.has_other OsPath.extsep stem = true ->
  Str.rfind OsPath.sep ext1 = (-1)%Z ->
  Str.rfind OsPath.extsep ext1 = (-1)%Z ->
  Str.rfind OsPath.sep ext2 = (-1)%Z ->
  Str.rfind OsPath.extsep ext2 = (-1)%Z ->
  structured_run_loc cwd d (stem ++ String OsPath.extsep ext1)
  = structured_run_loc cwd d (stem ++ String OsPath.extsep ext2)
  /\ structured_run_loc cwd d (stem ++ String OsPath.extsep ext1)
     = OsPath.abspath cwd
         (OsPath.join d
            ((if endswith_str "_structure" stem
              then stem else stem ++ "_structure") ++ ".json")).
Proof.
  intros Hs Hdots Hs1 Hd1 Hs2 Hd2.
  rewrite !structured_run_loc_stem_ext by assumption. split; reflexivity.
Qed.

(** X8. The recorded location is an absolute path whenever the working
    directory is one; and when the output directory itself is absolute --
    as it always is with [BEEP_PROCESSING_DIR] unset, the root then being
    "/" -- the location does not depend on the working directory at all. *)
Theorem location_is_absolute (d filename : string) :
  (forall cwd, OsPath.isabs cwd = true ->
               OsPath.isabs (structured_run_loc cwd d filename) = true)
  /\ (OsPath.isabs d = true ->
      forall cwd1 cwd2,
        structured_run_loc cwd1 d filename = structured_run_loc cwd2 d filename)
  /\ (forall processed_dir,
         OsPath.isabs
           (OsPath.join (environ_get [] "BEEP_PROCESSING_DIR" "/") processed_dir)
         = true).
Proof.
  split; [| split].
  - intros cwd Hc. rewrite structured_run_loc_eq. unfold OsPath.abspath.
    apply normpath_absolute.
    destruct (OsPath.isabs (OsPath.join d _)) eqn:E; [exact E |].
    apply join_absolute_l; exact Hc.
  - intros Hd cwd1 cwd2. rewrite !structured_run_loc_eq. unfold OsPath.abspath.
    rewrite (join_absolute_l d _ Hd). reflexivity.
  - intros processed_dir. apply join_absolute_l. reflexivity.
Qed.

(* ================================================================= *)
(** ** Further properties of the dispatch *)


Section MoreDispatch.

Variable Datapath : Type.
Variable RunId : Type.
Variable from_file : datapath_class -> string -> result Datapath.
Variable schemas : conversion_schemas.

Let W := world Datapath RunId.
Let auto_load' := auto_load Datapath RunId from_file schemas.
Let call_from_file' := call_from_file Datapath RunId from_file.

(** X9. [auto_load] either finds no pattern, and then raises its
    [ValueError] without any constructor having been called, or calls the
    constructor of one class exactly once, on the entry unchanged, and hands
    back that call's outcome as it is -- the object, or the exception the
    constructor raised. *)
Theorem auto_load_calls_one_constructor (filename : string) (w : W) :
  (lookup (registry schemas) filename = None
   /\ auto_load' filename w
      = (Raise (ValueError
                  (filename ++ " does not match any known file pattern")), w))
  \/ (exists cls,
         lookup (registry schemas) filename = Some cls
         /\ auto_load' filename w
            = (from_file cls filename, log (FromFile cls filename) w)).
Proof.
  unfold auto_load'. rewrite auto_load_lookup.
  destruct (lookup (registry schemas) filename) as [cls|].
  - right. exists cls. split; reflexivity.
  - left. split; reflexivity.
Qed.

(** X10. Which of its two patterns a shared handler is registered under
    first does not matter: exchanging the ARBIN and FastCharge patterns, and
    the MACCOR and xTesladiag patterns, leaves [auto_load] unchanged. *)
Theorem auto_load_shared_patterns_commute (filename : string) :
  auto_load Datapath RunId from_file (swap_shared schemas) filename
  = auto_load' filename.
Proof.
  unfold auto_load', auto_load, swap_shared. cbn [ARBIN_CONFIG FastCharge_CONFIG
    MACCOR_CONFIG xTesladiag_CONFIG INDIGO_CONFIG BIOLOGIC_CONFIG NEWARE_CONFIG].
  rewrite (orb_comm (Re.re_match (file_pattern (FastCharge_CONFIG schemas)) _)),
    (orb_comm (Re.re_match (file_pattern (xTesladiag_CONFIG schemas)) _)).
  reflexivity.
Qed.



End MoreDispatch.

(* ================================================================= *)
(** ** The further properties at concrete inputs *)

Lemma missing_key_raises_KeyError_witness :
  let loadfn := fun _ : string =>
                  @Raise (parsed Z) (PyExc "FileNotFoundError" "no such file") in
  let doc := {| key_file_list := Some ["a.csv"]; key_validity := None;
                key_run_list := Some [1%Z] |} in
  let json_loads := fun _ : string => Return doc in
  fst (load_file_list_data string Z loadfn json_loads "inline" Sample.w0)
  = Return doc
  /\ process_file_list_json string Z Sample.from_file Sample.structure
       Sample.schemas loadfn json_loads "inline" "out" Sample.w0
     = (Raise (KeyError "validity"), after_setup "out" Sample.w0).
Proof.
  intros loadfn doc json_loads.
  assert (H : fst (load_file_list_data string Z loadfn json_loads "inline"
                                       Sample.w0) = Return doc)
    by reflexivity.
  split; [exact H |].
  apply (proj1 (proj2 (missing_key_raises_KeyError
                         string Z Sample.from_file Sample.structure
                         Sample.schemas loadfn json_loads "inline" "out"
                         Sample.w0 doc H))).
  - discriminate.
  - reflexivity.
Defined.

Lemma handler_failure_aborts_loop_witness :
  let err := PyExc "OSError" "unreadable" in
  let from_file := fun (_ : datapath_class) (_ : string) => @Raise string err in
  lookup (registry Sample.schemas) "cellA_2019.csv" = Some ArbinDatapath
  /\ for_each string Z
       (structure_entry string Z from_file Sample.structure Sample.schemas "/out")
       ([] ++ ("cellA_2019.csv", "valid", 1%Z) :: [("cellA_2020.csv", "valid", 2%Z)])
       empty_lists Sample.w0
     = (Raise err, log (FromFile ArbinDatapath "cellA_2019.csv") Sample.w0).
Proof.
  intros err from_file.
  assert (H : lookup (registry Sample.schemas) "cellA_2019.csv"
              = Some ArbinDatapath) by reflexivity.
  split; [exact H |].
  exact (proj1 (handler_failure_aborts_loop
                  string Z from_file Sample.structure Sample.schemas
                  "/out" [] [("cellA_2020.csv", "valid", 2%Z)]
                  "cellA_2019.csv" 1%Z empty_lists empty_lists
                  Sample.w0 Sample.w0 ArbinDatapath err eq_refl H)
               eq_refl).
Defined.

Lemma branches_partition_entries_witness :
  let es := [("cellA_2019.csv", "valid", 42%Z); ("b.csv", "skip", 7%Z)] in
  Forall (fun e => is_valid e = true ->
                   structures_well Sample.from_file Sample.structure
                                   Sample.schemas e) es
  /\ exists l' w',
      for_each string Z
        (structure_entry string Z Sample.from_file Sample.structure
                         Sample.schemas "/out")
        es empty_lists Sample.w0 = (Return l', w')
      /\ processed_run_list l' = [42%Z]
      /\ invalid_file_list l' = ["b.csv"].
Proof.
  intros es.
  assert (H : Forall (fun e => is_valid e = true ->
                               structures_well Sample.from_file Sample.structure
                                               Sample.schemas e) es).
  { constructor; [| constructor; [| constructor]].
    - intros _. split; [reflexivity |].
      exists ArbinDatapath, "cellA_2019.csv", "cellA_2019.csv".
      repeat split; reflexivity.
    - intros Hv. discriminate Hv. }
  split; [exact H |].
  destruct (branches_partition_entries
              string Z Sample.from_file Sample.structure Sample.schemas
              "/out" es H empty_lists Sample.w0)
    as (l' & w' & E & _ & _ & _ & Hr & _ & _ & Hi & _).
  exists l', w'. split; [exact E |]. split; [exact Hr | exact Hi].
Defined.

Lemma location_ignores_directories_witness :
  Str.rfind OsPath.sep "cellA_2019.csv" = (-1)%Z
  /\ structured_run_loc "/home/beep" "/out"
                        ("/data/raw" ++ String OsPath.sep "cellA_2019.csv")
     = structured_run_loc "/home/beep" "/out" "cellA_2019.csv".
Proof.
  split; [reflexivity |].
  exact (proj2 (location_ignores_directories "/home/beep" "/out")
               "/data/raw" "cellA_2019.csv" eq_refl).
Defined.

Lemma location_ignores_extension_witness :
  Str.has_other OsPath.extsep "run1" = true
  /\ structured_run_loc "/home/beep" "/out" ("run1" ++ String OsPath.extsep "csv")
     = structured_run_loc "/home/beep" "/out"
                          ("run1" ++ String OsPath.extsep "txt")
  /\ structured_run_loc "/home/beep" "/out" ("run1" ++ String OsPath.extsep "csv")
     = "/out/run1_structure.json".
Proof.
  split; [reflexivity |].
  exact (location_ignores_extension
           "/home/beep" "/out" "run1" "csv" "txt"
           eq_refl eq_refl eq_refl eq_refl eq_refl eq_refl).
Defined.

Lemma location_is_absolute_witness :
  OsPath.isabs "/home/beep" = true
  /\ OsPath.isabs (structured_run_loc "/home/beep" "out/" "raw/cellA.csv") = true.
Proof.
  split; [reflexivity |].
  exact (proj1 (location_is_absolute "out/" "raw/cellA.csv")
               "/home/beep" eq_refl).
Defined.



